(** * balanceofsatoshis: routes for funding a swap, and the node balance

    A shallow embedding of [swaps/get_routes_for_funding.js] and
    [balances/get_balance.js].

    Both functions are [async/auto] task graphs around calls into the
    node ([ln-service]) and into the [network] helpers.  The embedding keeps
    that shape: every task is a definition of the same name, the
    collaborators are fields of a record of oracles, and a task returns what
    it passes to its callback together with the list of collaborator calls it
    made, in the order in which they were started. *)

From Stdlib Require Import ZArith Ascii String List Bool Lia.
From Stdlib Require Import DecimalString DecimalPos DecimalZ.
Import ListNotations.

Set Warnings "-register-all".

(** ** JavaScript values *)

(** An error value.  The code base reports failures as arrays
    [[code, reason, context]]; [thrown] is an exception object raised by the
    runtime (for instance by [BigInt(undefined)]). *)
Inductive Failure : Type :=
| failure (code : Z) (reason : string) (context : option Failure)
| thrown (message : string).

(** The authenticated handle [args.lnd] and the logger are opaque objects. *)
Inductive Lnd : Type := lnd_api (socket : string).
Inductive Logger : Type := winston_logger.

(** [!!v]: the ToBoolean conversion, per type of [v].  A field that may be
    absent is an [option]; [None] is [undefined]. *)
Class Truthy (A : Type) := truthy : A -> bool.

#[export] Instance Truthy_Z : Truthy Z := fun z => negb (z =? 0)%Z.
#[export] Instance Truthy_nat : Truthy nat := fun n => negb (n =? 0)%nat.
#[export] Instance Truthy_bool : Truthy bool := fun b => b.
#[export] Instance Truthy_string : Truthy string :=
  fun s => match s with EmptyString => false | _ => true end.
#[export] Instance Truthy_Lnd : Truthy Lnd := fun _ => true.
#[export] Instance Truthy_Logger : Truthy Logger := fun _ => true.
#[export] Instance Truthy_Failure : Truthy Failure := fun _ => true.
#[export] Instance Truthy_option {A} `{Truthy A} : Truthy (option A) :=
  fun o => match o with Some a => truthy a | None => false end.

(** [a || b] on a possibly absent value with a default. *)
Definition js_or {A} `{Truthy A} (a : option A) (b : A) : A :=
  match a with
  | Some x => if truthy x then x else b
  | None => b
  end.

(** [a > b] and [a < b] where [b] may be [undefined]: [undefined] converts
    to NaN and every comparison with NaN is false. *)
Definition js_gt (a : Z) (b : option Z) : bool :=
  match b with Some m => (m <? a)%Z | None => false end.

Definition js_lt (a : Z) (b : option Z) : bool :=
  match b with Some m => (a <? m)%Z | None => false end.

(** [arr.filter(n => !!n)] on an array of objects that may be absent. *)
Fixpoint compact {A} (arr : list (option A)) : list A :=
  match arr with
  | [] => []
  | Some a :: rest => a :: compact rest
  | None :: rest => compact rest
  end.

(** [arr.reduce((sum, n) => sum + n, Number())]. *)
Definition sumOf (arr : list Z) : Z := fold_left Z.add arr 0%Z.

(** [[].concat(...arr)]. *)
Definition flatten {A} (arr : list (list A)) : list A := List.concat arr.

(** [Array.from(new Set(arr))]: the first occurrence of every element, in
    insertion order. *)
Fixpoint uniq_from (seen : list string) (arr : list string) : list string :=
  match arr with
  | [] => []
  | x :: rest =>
      if existsb (String.eqb x) seen then uniq_from seen rest
      else x :: uniq_from (x :: seen) rest
  end.

Definition uniq (arr : list string) : list string := uniq_from [] arr.

(** ** Asynchronous tasks

    What a task hands to its callback: a value, an error, or nothing at all
    ([Pending]: the callback is never invoked, the promise never settles). *)
Inductive Outcome (A : Type) : Type :=
| Ok (a : A)
| Fail (e : Failure)
| Pending.

Arguments Ok {A} a.
Arguments Fail {A} e.
Arguments Pending {A}.

(** [new Error(err)] for an error value that is not an Error object: the
    message is the array written as a string, its elements joined by
    commas, a context object as [[object Object]]. *)
Definition error_message (e : Failure) : string :=
  match e with
  | failure code reason context =>
      (NilZero.string_of_int (Z.to_int code) ++ "," ++ reason
       ++ match context with
          | Some _ => ",[object Object]"
          | None => EmptyString
          end)%string
  | thrown message => message
  end.

(** What the wrapper of an [async] function hands to the callback when the
    promise is rejected with [err]:
    [err && (err instanceof Error || err.message) ? err : new Error(err)]. *)
Definition rejection (e : Failure) : Failure :=
  match e with
  | thrown _ => e
  | failure _ _ _ => thrown (error_message e)
  end.

(** The answer of a collaborator as an [async] function that awaits it
    hands it on. *)
Definition rejected {A} (r : Failure + A) : Failure + A :=
  match r with
  | inl e => inl (rejection e)
  | inr a => inr a
  end.

(** A task over collaborator-call events [Ev]: its outcome and the calls it
    started. *)
Definition Task (Ev A : Type) : Type := (Outcome A * list Ev)%type.

Section Tasks.
Context {Ev : Type}.

Definition ret {A} (a : A) : Task Ev A := (Ok a, []).
Definition fail {A} (e : Failure) : Task Ev A := (Fail e, []).

(** A task that depends on another one runs only when the first one
    succeeded: [async/auto] stops at the first error and hands it to the
    final callback. *)
Definition bind {A B} (m : Task Ev A) (k : A -> Task Ev B) : Task Ev B :=
  match m with
  | (Ok a, t) => let (r, t') := k a in (r, t ++ t')
  | (Fail e, t) => (Fail e, t)
  | (Pending, t) => (Pending, t)
  end.

(** A call of a callback-style collaborator: [ev] records the call,
    [r] is what the collaborator answers. *)
Definition call {A} (ev : Ev) (r : Failure + A) : Task Ev A :=
  match r with
  | inr a => (Ok a, [ev])
  | inl e => (Fail e, [ev])
  end.

(** Two tasks that are ready together are both started; the first error
    ends the graph.  Which error arrives first is a matter of timing: the
    model reports the one of the task declared first. *)
Definition both {A B} (a : Task Ev A) (b : Task Ev B) : Task Ev (A * B) :=
  match a, b with
  | (Ok x, ta), (Ok y, tb) => (Ok (x, y), ta ++ tb)
  | (Fail e, ta), (_, tb) => (Fail e, ta ++ tb)
  | (_, ta), (Fail e, tb) => (Fail e, ta ++ tb)
  | (_, ta), (_, tb) => (Pending, ta ++ tb)
  end.

(** An [async] function used as a task or as an iteratee: its value is
    handed on, its rejection goes through [rejection]. *)
Definition asyncify {A} (t : Task Ev A) : Task Ev A :=
  match t with
  | (Fail e, tr) => (Fail (rejection e), tr)
  | _ => t
  end.

(** [asyncMap(coll, iteratee)] without a limit: every iteratee is started,
    the results keep the order of [coll]. *)
Fixpoint asyncMap {A B} (coll : list A) (iteratee : A -> Task Ev B)
  : Task Ev (list B) :=
  match coll with
  | [] => ret []
  | x :: rest =>
      match both (iteratee x) (asyncMap rest iteratee) with
      | (Ok (y, ys), t) => (Ok (y :: ys), t)
      | (Fail e, t) => (Fail e, t)
      | (Pending, t) => (Pending, t)
      end
  end.
End Tasks.

Notation "x <- m ;; k" := (bind m (fun x => k))
  (at level 61, m at next level, right associativity).
Notation "m ;;; k" := (bind m (fun _ => k))
  (at level 61, right associativity).

(** ** balances/get_balance.js *)
Module GetBalance.

Local Open Scope Z_scope.

Definition none : Z := 0.

Record Args := {
  above : option Z;
  below : option Z;
  is_confirmed : option bool;
  is_offchain_only : option bool;
  is_onchain_only : option bool;
  lnd : option Lnd;
}.

(** An entry of [getChannels(...).channels]. *)
Module Channel.
Record t := {
    commit_transaction_fee : Z;
    is_partner_initiated : option bool;
  }.
End Channel.

Module ChannelBalance.
Record t := { channel_balance : Z; pending_balance : Z }.
End ChannelBalance.

(** The value returned to the caller. *)
Module Result.
Record t := { balance : Z; channel_balance : Z }.
End Result.

(** The node behind [args.lnd], and the sibling module
    [./balance_from_tokens], whose source is not part of this development:
    it is taken as a parameter ([None]: it raises). *)
Record Node := {
  getChainBalance : option Lnd -> Failure + Z;
  getChannelBalance : option Lnd -> Failure + ChannelBalance.t;
  getChannels : option Lnd -> Failure + list Channel.t;
  getPendingChainBalance : option Lnd -> Failure + Z;
  balanceFromTokens : option Z -> option Z -> list Z -> option Z;
}.

Inductive Event : Type :=
| EvGetChainBalance
| EvGetChannelBalance
| EvGetChannels
| EvGetPendingChainBalance.

Definition validate (args : Args) : Task Event unit :=
  if negb (truthy (lnd args)) then
    fail (failure 400 "ExpectedLndToGetBalance" None)
  else ret tt.

(** [n.is_partner_initiated === false]. *)
Definition is_own_initiated (n : Channel.t) : bool :=
  match Channel.is_partner_initiated n with
  | Some false => true
  | _ => false
  end.

Definition futureCommitFees (channels : list Channel.t) : Z :=
  fold_left (fun sum n => sum + Channel.commit_transaction_fee n)
    (filter is_own_initiated channels) 0.

(** The [balance] task. *)
Definition balance (nd : Node) (args : Args)
    (chain_balance : Z) (getChanBalance : ChannelBalance.t)
    (channels : list Channel.t) (pending_chain_balance : Z)
  : Task Event Result.t :=
  let fees := futureCommitFees channels in
  let pendingChain :=
    if truthy (is_offchain_only args) || truthy (is_confirmed args)
    then none else pending_chain_balance in
  let pendingChanToks :=
    if truthy (is_onchain_only args) || truthy (is_confirmed args)
    then none else ChannelBalance.pending_balance getChanBalance in
  let balances := [
    if truthy (is_offchain_only args) then none else chain_balance;
    if truthy (is_onchain_only args) then none
    else ChannelBalance.channel_balance getChanBalance;
    if truthy (is_onchain_only args) then none else - fees;
    pendingChain;
    pendingChanToks ] in
  match balanceFromTokens nd (above args) (below args) balances with
  | None => (Pending, [])
  | Some total =>
      ret {| Result.balance := total;
             Result.channel_balance :=
               ChannelBalance.channel_balance getChanBalance - fees |}
  end.

Definition get_balance (nd : Node) (args : Args) : Task Event Result.t :=
  validate args ;;;
  l <- ret (lnd args) ;;
  r <- both (call EvGetChainBalance (getChainBalance nd l))
         (both (call EvGetChannelBalance (getChannelBalance nd l))
            (both (call EvGetChannels (getChannels nd l))
               (call EvGetPendingChainBalance
                  (getPendingChainBalance nd l)))) ;;
  let '(chain, (chan, (chans, pend))) := r in
  balance nd args chain chan chans pend.

End GetBalance.

(** ** swaps/get_routes_for_funding.js *)
Module GetRoutesForFunding.

Local Open Scope Z_scope.

Definition defaultMaxPaths : Z := 7.

(** [(BigInt(tokens) * BigInt(1e3)).toString()]; [BigInt(undefined)]
    raises a TypeError. *)
Definition tokensAsMtokens (tokens : option Z) : Failure + string :=
  match tokens with
  | Some n => inr (NilZero.string_of_int (Z.to_int (n * 1000)))
  | None => inl (thrown "TypeError: Cannot convert undefined to a BigInt")
  end.

(** [Math.floor(16777215 * 0.99)]. *)
Definition find_max : Z := 16777215 * 99 / 100.

(** An entry of [args.ignore]. *)
Module Ignore.
Record t := { from_public_key : string; to_public_key : option string }.
End Ignore.

(** An entry of a candidate route of [args.routes]. *)
Module Hint.
Record t := {
  base_fee_mtokens : option string;
  channel : option string;
  cltv_delta : option Z;
  fee_rate : option Z;
  public_key : string;
}.
End Hint.

(** The request.  Amounts, heights and [max_paths] are integer-valued
    Numbers. *)
Record Args := {
  cltv_delta : option Z;
  destination : option string;
  features : option (list Z);
  ignore : option (list Ignore.t);
  in_through : option string;
  lnd : option Lnd;
  logger : option Logger;
  max_fee : option Z;
  max_paths : option Z;
  out_through : option string;
  outgoing_channel : option string;
  payment : option string;
  routes : option (list (list Hint.t));
  tokens : option Z;
}.

Module Hop.
Record t := {
  channel : string;
  channel_capacity : Z;
  fee : Z;
  forward : Z;
  public_key : option string;
  timeout : Z;
}.
End Hop.

(** A route, as [executeProbe] and [multiPathPayment] return it. *)
Module Route.
Record t := {
  fee : Z;
  hops : list Hop.t;
  mtokens : string;
  payment : option string;
  timeout : Z;
  tokens : Z;
}.
End Route.

(** What [executeProbe] answers: [route] is absent when the probe found
    no path. *)
Module ProbeResult.
Record t := { route : option Route.t }.
End ProbeResult.

(** The argument of [executeProbe]. *)
Module ProbeRequest.
Record t := {
  cltv_delta : option Z;
  destination : option string;
  features : option (list Z);
  ignore : option (list Ignore.t);
  lnd : option Lnd;
  logger : option Logger;
  max_fee : option Z;
  outgoing_channel : option string;
  payment : option string;
  routes : option (list (list Hint.t));
  tokens : option Z;
  total_mtokens : string;
}.
End ProbeRequest.

(** A successful probe of [multiPathProbe]. *)
Module Probe.
Record t := {
  latency_ms : Z;
  relays : list string;
  route_maximum : Z;
  success : list string;
}.
End Probe.

(** What [multiPathProbe] answers when it does not fail: a probe, a reason
    why no further path was found, possibly both or neither. *)
Module MultiProbeResult.
Record t := { probe : option Probe.t; error : option Failure }.
End MultiProbeResult.

(** The argument of [multiPathProbe]. *)
Module MultiProbeRequest.
Record t := {
  probes : list Probe.t;
  destination : option string;
  find_max : Z;
  ignore : option (list Ignore.t);
  in_through : option string;
  lnd : option Lnd;
  logger : option Logger;
  out_through : option string;
}.
End MultiProbeRequest.

(** A per-probe summary and the value of the [getMultiLimits] task. *)
Module Summary.
Record t := { channels : list string; liquidity : Z; relays : list string }.
End Summary.

Module Limits.
Record t := { latency_ms : Z; probes : list Summary.t; routes_max : Z }.
End Limits.

(** What [getChannel] answers. *)
Module ChannelInfo.
Record t := { id : string; capacity : Z }.
End ChannelInfo.

(** What [getWalletInfo] answers. *)
Module WalletInfo.
Record t := { current_block_height : Z }.
End WalletInfo.

(** The argument of [multiPathPayment]. *)
Module PaymentRequest.
Record t := {
  channels : list ChannelInfo.t;
  cltv_delta : option Z;
  destination : option string;
  height : Z;
  max : Z;
  mtokens : string;
  payment : option string;
  probes : list Summary.t;
}.
End PaymentRequest.

(** The value returned to the caller. *)
Module Result.
Record t := { fee : Z; routes : list Route.t }.
End Result.

(** The collaborators.  [multiPathProbe] is asked repeatedly; its answer
    may change from one call to the next, so it also receives the number of
    calls already made.  [multiPathPayment] is synchronous; [inl] is an
    exception it raises. *)
Record World := {
  getWalletVersion : option Lnd -> Failure + unit;
  executeProbe : ProbeRequest.t -> Failure + ProbeResult.t;
  multiPathProbe : nat -> MultiProbeRequest.t -> Failure + MultiProbeResult.t;
  getChannel : string -> option Lnd -> Failure + ChannelInfo.t;
  getWalletInfo : option Lnd -> Failure + WalletInfo.t;
  multiPathPayment : PaymentRequest.t -> Failure + list Route.t;
}.

(** Calls into the collaborators. *)
Inductive Event : Type :=
| EvGetWalletVersion
| EvExecuteProbe (req : ProbeRequest.t)
| EvMultiPathProbe (n : nat) (req : MultiProbeRequest.t)
| EvGetChannel (id : string)
| EvGetWalletInfo
| EvMultiPathPayment (req : PaymentRequest.t).

(** *** The tasks *)

Definition validate (args : Args) : Task Event unit :=
  if negb (truthy (cltv_delta args)) then
    fail (failure 400 "ExpectedCltvDeltaToGetRoutesForFunding" None)
  else if negb (truthy (destination args)) then
    fail (failure 400 "ExpectedDestinationToGetRoutesForFunding" None)
  else if negb (truthy (lnd args)) then
    fail (failure 400 "ExpectedLndToGetRoutesForFunding" None)
  else if negb (truthy (logger args)) then
    fail (failure 400 "ExpectedLoggerToGetRoutesForFunding" None)
  else if negb (truthy (tokens args)) then
    fail (failure 400 "ExpectedTokensToGetRoutesForFunding" None)
  else ret tt.

(** The capability check.  Its value [{is_multi_supported: !err}] is
    represented by the boolean; the error of [getWalletVersion] is dropped
    and the task never fails. *)
Definition getMultiSupport (w : World) (args : Args) : Task Event bool :=
  (Ok (match getWalletVersion w (lnd args) with
       | inl _ => false
       | inr _ => true
       end),
   [EvGetWalletVersion]).

Definition singlePathRequest (args : Args) (total : string)
  : ProbeRequest.t :=
  {| ProbeRequest.cltv_delta := cltv_delta args;
     ProbeRequest.destination := destination args;
     ProbeRequest.features := features args;
     ProbeRequest.ignore := ignore args;
     ProbeRequest.lnd := lnd args;
     ProbeRequest.logger := logger args;
     ProbeRequest.max_fee := max_fee args;
     ProbeRequest.outgoing_channel := outgoing_channel args;
     ProbeRequest.payment := payment args;
     ProbeRequest.routes := routes args;
     ProbeRequest.tokens := tokens args;
     ProbeRequest.total_mtokens := total |}.

(** The single path: an error of [executeProbe] is wrapped and handed to
    the callback of the task as its error. *)
Definition getSinglePath (w : World) (args : Args)
  : Task Event ProbeResult.t :=
  match tokensAsMtokens (tokens args) with
  | inl e => fail e
  | inr total =>
      let req := singlePathRequest args total in
      match executeProbe w req with
      | inl err =>
          (Fail (failure 503 "UnexpectedErrorFindingRouteToFundSwap"
                   (Some err)),
           [EvExecuteProbe req])
      | inr res => (Ok res, [EvExecuteProbe req])
      end
  end.

(** The variables [probes] and [error] that the loop of [getMultiLimits]
    shares with its final callback. *)
Record Accumulation := {
  probes : list Probe.t;
  error : option Failure;
}.

Definition multiPathRequest (args : Args) (acc : Accumulation)
  : MultiProbeRequest.t :=
  {| MultiProbeRequest.probes := probes acc;
     MultiProbeRequest.destination := destination args;
     MultiProbeRequest.find_max := find_max;
     MultiProbeRequest.ignore := ignore args;
     MultiProbeRequest.in_through := in_through args;
     MultiProbeRequest.lnd := lnd args;
     MultiProbeRequest.logger := logger args;
     MultiProbeRequest.out_through := out_through args |}.

(** The test of [asyncWhilst]. *)
Definition test (args : Args) (acc : Accumulation) : bool :=
  if js_or (max_paths args) defaultMaxPaths
     =? Z.of_nat (List.length (probes acc))
  then false
  else negb (truthy (error acc)).

(** What the callback of [multiPathProbe] does with an answer [res]. *)
Definition record_answer (acc : Accumulation) (res : MultiProbeResult.t)
  : Accumulation :=
  {| probes :=
       match MultiProbeResult.probe res with
       | Some p => probes acc ++ [p]
       | None => probes acc
       end;
     error :=
       if truthy (MultiProbeResult.error res)
       then MultiProbeResult.error res
       else error acc |}.

(** [asyncWhilst(test, iteratee, callback)]: the value is what the final
    callback receives, the error [err] of the iteratee if there was one,
    next to the shared variables as they are at that moment.  [fuel] bounds
    the number of evaluations of the test; [n] counts the calls made. *)
Fixpoint asyncWhilst (w : World) (args : Args) (fuel n : nat)
    (acc : Accumulation) : Task Event (option Failure * Accumulation) :=
  match fuel with
  | O => (Pending, [])
  | S fuel' =>
      if test args acc then
        let req := multiPathRequest args acc in
        match multiPathProbe w n req with
        | inl err => (Ok (Some err, acc), [EvMultiPathProbe n req])
        | inr res =>
            let (r, t) :=
              asyncWhilst w args fuel' (S n) (record_answer acc res) in
            (r, EvMultiPathProbe n req :: t)
        end
      else ret (None, acc)
  end.

Definition summary (probe : Probe.t) : Summary.t :=
  {| Summary.channels := Probe.success probe;
     Summary.liquidity := Probe.route_maximum probe;
     Summary.relays := Probe.relays probe |}.

(** The final callback of the loop. *)
Definition limits (done : option Failure * Accumulation)
  : Task Event (option Limits.t) :=
  let (err, acc) := done in
  match err with
  | Some e => fail e
  | None =>
      match probes acc with
      | [] =>
          match error acc with
          | Some e => fail e
          | None => ret None
          end
      | _ =>
          ret (Some
            {| Limits.latency_ms := sumOf (map Probe.latency_ms (probes acc));
               Limits.probes := map summary (probes acc);
               Limits.routes_max :=
                 sumOf (map Probe.route_maximum (probes acc)) |})
      end
  end.

(** The accumulator.  It waits for [getMultiSupport] and [getSinglePath];
    [cbk()] is the value [None]. *)
Definition getMultiLimits (fuel : nat) (w : World) (args : Args)
    (is_multi_supported : bool) (getSinglePath : ProbeResult.t)
  : Task Event (option Limits.t) :=
  if negb is_multi_supported then ret None
  else if truthy (out_through args) then ret None
  else
    done <- asyncWhilst w args fuel 0 {| probes := []; error := None |} ;;
    limits done.

(** The translation of the limits into routes, an [async] function, as is
    the iteratee of its [asyncMap]: a rejected [await] and an exception of
    [multiPathPayment] reach the task graph through [rejection], a plain
    [return] is the value [None]. *)
Definition getMultiPaths (w : World) (args : Args)
    (getMultiLimits : option Limits.t) : Task Event (option (list Route.t)) :=
  asyncify
    match getMultiLimits with
    | None => ret None
    | Some lim =>
        if js_lt (Limits.routes_max lim) (tokens args) then ret None
        else
          let ids := flatten (map Summary.channels (Limits.probes lim)) in
          channels <- asyncMap (uniq ids)
            (fun id =>
               asyncify
                 (call (EvGetChannel id) (getChannel w id (lnd args)))) ;;
          info <- call EvGetWalletInfo (getWalletInfo w (lnd args)) ;;
          match tokensAsMtokens (tokens args) with
          | inl e => fail e
          | inr mtok =>
              let req :=
                {| PaymentRequest.channels := channels;
                   PaymentRequest.cltv_delta := cltv_delta args;
                   PaymentRequest.destination := destination args;
                   PaymentRequest.height :=
                     WalletInfo.current_block_height info;
                   PaymentRequest.max := Limits.routes_max lim;
                   PaymentRequest.mtokens := mtok;
                   PaymentRequest.payment := payment args;
                   PaymentRequest.probes := Limits.probes lim |} in
              rs <- call (EvMultiPathPayment req) (multiPathPayment w req) ;;
              ret (Some rs)
          end
    end.

(** [getMultiPaths || [getSinglePath.route].filter(n => !!n)]: an array,
    also an empty one, is truthy. *)
Definition paths (getMultiPaths : option (list Route.t))
    (getSinglePath : ProbeResult.t) : list Route.t :=
  match getMultiPaths with
  | Some rs => rs
  | None => compact [ProbeResult.route getSinglePath]
  end.

Definition result (args : Args) (getMultiPaths : option (list Route.t))
    (getSinglePath : ProbeResult.t) : Task Event Result.t :=
  let ps := paths getMultiPaths getSinglePath in
  if negb (truthy (List.length ps))
     || js_gt (sumOf (map Route.fee ps)) (max_fee args)
  then fail (failure 503 "FailedToFindAPathToFundSwapOffchain" None)
  else ret {| Result.fee := sumOf (map Route.fee ps); Result.routes := ps |}.

(** Everything that follows the two tasks that depend on [validate] only. *)
Definition select (fuel : nat) (w : World) (args : Args)
    (is_multi_supported : bool) (single : ProbeResult.t)
  : Task Event Result.t :=
  lim <- getMultiLimits fuel w args is_multi_supported single ;;
  multi <- getMultiPaths w args lim ;;
  result args multi single.

(** The task graph: [getMultiSupport] and [getSinglePath] wait for
    [validate], [getMultiLimits] for both of them, [getMultiPaths] for
    [getMultiLimits], and [result], whose value is returned, for
    [getMultiPaths] and [getSinglePath]. *)
Definition get_routes_for_funding (fuel : nat) (w : World) (args : Args)
  : Task Event Result.t :=
  validate args ;;;
  started <- both (getMultiSupport w args) (getSinglePath w args) ;;
  select fuel w args (fst started) (snd started).

End GetRoutesForFunding.

(** ** Concrete requests and collaborators

    The request of the end-to-end scenarios: CLTV delta 40, 100000 tokens,
    a fee budget of 1000. *)
Module Scenario.
Import GetRoutesForFunding.

Local Open Scope string_scope.
Local Open Scope Z_scope.

Definition node : Lnd := lnd_api "localhost:10009".

Definition request : Args :=
  {| cltv_delta := Some 40;
     destination := Some "02aa";
     features := None;
     ignore := None;
     in_through := None;
     lnd := Some node;
     logger := Some winston_logger;
     max_fee := Some 1000;
     max_paths := None;
     out_through := None;
     outgoing_channel := None;
     payment := None;
     routes := None;
     tokens := Some 100000 |}.

Definition with_budget (budget : option Z) (a : Args) : Args :=
  {| cltv_delta := cltv_delta a;
     destination := destination a;
     features := features a;
     ignore := ignore a;
     in_through := in_through a;
     lnd := lnd a;
     logger := logger a;
     max_fee := budget;
     max_paths := max_paths a;
     out_through := out_through a;
     outgoing_channel := outgoing_channel a;
     payment := payment a;
     routes := routes a;
     tokens := tokens a |}.

Definition with_cltv_delta (delta : option Z) (a : Args) : Args :=
  {| cltv_delta := delta;
     destination := destination a;
     features := features a;
     ignore := ignore a;
     in_through := in_through a;
     lnd := lnd a;
     logger := logger a;
     max_fee := max_fee a;
     max_paths := max_paths a;
     out_through := out_through a;
     outgoing_channel := outgoing_channel a;
     payment := payment a;
     routes := routes a;
     tokens := tokens a |}.

Definition with_out_through (peer : option string) (a : Args) : Args :=
  {| cltv_delta := cltv_delta a;
     destination := destination a;
     features := features a;
     ignore := ignore a;
     in_through := in_through a;
     lnd := lnd a;
     logger := logger a;
     max_fee := max_fee a;
     max_paths := max_paths a;
     out_through := peer;
     outgoing_channel := outgoing_channel a;
     payment := payment a;
     routes := routes a;
     tokens := tokens a |}.

Definition with_max_paths (count : option Z) (a : Args) : Args :=
  {| cltv_delta := cltv_delta a;
     destination := destination a;
     features := features a;
     ignore := ignore a;
     in_through := in_through a;
     lnd := lnd a;
     logger := logger a;
     max_fee := max_fee a;
     max_paths := count;
     out_through := out_through a;
     outgoing_channel := outgoing_channel a;
     payment := payment a;
     routes := routes a;
     tokens := tokens a |}.

Definition hop (chan : string) (amount cost : Z) : Hop.t :=
  {| Hop.channel := chan;
     Hop.channel_capacity := 16777215;
     Hop.fee := cost;
     Hop.forward := amount;
     Hop.public_key := Some "02aa";
     Hop.timeout := 700040 |}.

Definition route (chan : string) (amount cost : Z) : Route.t :=
  {| Route.fee := cost;
     Route.hops := [hop chan amount cost];
     Route.mtokens := NilZero.string_of_int (Z.to_int ((amount + cost) * 1000));
     Route.payment := None;
     Route.timeout := 700040;
     Route.tokens := amount + cost |}.

(** The single path: one hop, fee 500. *)
Definition single : Route.t := route "700000x1x0" 100000 500.

Definition probe (chan : string) (liquidity : Z) : Probe.t :=
  {| Probe.latency_ms := 120;
     Probe.relays := ["03bb"%string];
     Probe.route_maximum := liquidity;
     Probe.success := [chan] |}.

Definition found (p : Probe.t) : Failure + MultiProbeResult.t :=
  inr {| MultiProbeResult.probe := Some p; MultiProbeResult.error := None |}.

Definition no_more : Failure + MultiProbeResult.t :=
  inr {| MultiProbeResult.probe := None;
         MultiProbeResult.error :=
           Some (failure 503 "RoutingFailureAttemptingMultiProbe" None) |}.

Definition unavailable : Failure :=
  failure 503 "FailedToConnectToDaemon" None.

(** A prober that finds a path of 90000 and one of 60000, then no more. *)
Definition two_paths (n : nat) (req : MultiProbeRequest.t)
  : Failure + MultiProbeResult.t :=
  match n with
  | 0%nat => found (probe "700001x1x0" 90000)
  | 1%nat => found (probe "700002x1x0" 60000)
  | _ => no_more
  end.

(** A prober that finds one path and then loses the connection. *)
Definition path_then_outage (n : nat) (req : MultiProbeRequest.t)
  : Failure + MultiProbeResult.t :=
  match n with
  | 0%nat => found (probe "700001x1x0" 90000)
  | _ => inl unavailable
  end.

(** A prober that always finds another path. *)
Definition endless (n : nat) (req : MultiProbeRequest.t)
  : Failure + MultiProbeResult.t :=
  found (probe "700001x1x0" 1000).

Definition channel_info (id : string) (l : option Lnd)
  : Failure + ChannelInfo.t :=
  inr {| ChannelInfo.id := id; ChannelInfo.capacity := 16777215 |}.

(** Scenario A: the wallet answers, the single path costs 500, the two
    probes are turned into two routes that cost 300 together. *)
Definition world : World :=
  {| getWalletVersion := fun _ => inr tt;
     executeProbe := fun _ => inr {| ProbeResult.route := Some single |};
     multiPathProbe := two_paths;
     getChannel := channel_info;
     getWalletInfo := fun _ =>
       inr {| WalletInfo.current_block_height := 700000 |};
     multiPathPayment := fun _ =>
       inr [route "700001x1x0" 60000 200; route "700002x1x0" 40000 100] |}.

Definition with_wallet_version (answer : Failure + unit) (w : World) : World :=
  {| getWalletVersion := fun _ => answer;
     executeProbe := executeProbe w;
     multiPathProbe := multiPathProbe w;
     getChannel := getChannel w;
     getWalletInfo := getWalletInfo w;
     multiPathPayment := multiPathPayment w |}.

Definition with_executeProbe (answer : Failure + ProbeResult.t) (w : World)
  : World :=
  {| getWalletVersion := getWalletVersion w;
     executeProbe := fun _ => answer;
     multiPathProbe := multiPathProbe w;
     getChannel := getChannel w;
     getWalletInfo := getWalletInfo w;
     multiPathPayment := multiPathPayment w |}.

Definition with_multiPathProbe
    (prober : nat -> MultiProbeRequest.t -> Failure + MultiProbeResult.t)
    (w : World) : World :=
  {| getWalletVersion := getWalletVersion w;
     executeProbe := executeProbe w;
     multiPathProbe := prober;
     getChannel := getChannel w;
     getWalletInfo := getWalletInfo w;
     multiPathPayment := multiPathPayment w |}.

Definition with_multiPathPayment (answer : Failure + list Route.t) (w : World)
  : World :=
  {| getWalletVersion := getWalletVersion w;
     executeProbe := executeProbe w;
     multiPathProbe := multiPathProbe w;
     getChannel := getChannel w;
     getWalletInfo := getWalletInfo w;
     multiPathPayment := fun _ => answer |}.

(** The variations of scenario A that the examples use. *)
Definition no_budget : Args := with_budget None request.
Definition small_budget : Args := with_budget (Some 100) request.
Definition no_cltv_delta : Args := with_cltv_delta None request.
Definition pinned : Args := with_out_through (Some "03cc") request.
Definition two_at_most : Args := with_max_paths (Some 2) request.

Definition probe_down : World := with_executeProbe (inl unavailable) world.
Definition old_wallet : World := with_wallet_version (inl unavailable) world.
Definition outage : World := with_multiPathProbe path_then_outage world.
Definition many_small_paths : World := with_multiPathProbe endless world.
Definition nothing_synthesized : World := with_multiPathPayment (inr []) world.

End Scenario.

(** A node with three channels, of which the first and the third were
    opened from this side, and the plain sum for [balanceFromTokens]. *)
Module BalanceScenario.
Import GetBalance.

Local Open Scope Z_scope.

Definition opened (theirs : option bool) (commit_fee : Z) : Channel.t :=
  {| Channel.commit_transaction_fee := commit_fee;
     Channel.is_partner_initiated := theirs |}.

Definition node : Node :=
  {| getChainBalance := fun _ => inr 50000;
     getChannelBalance := fun _ =>
       inr {| ChannelBalance.channel_balance := 200000;
              ChannelBalance.pending_balance := 7000 |};
     getChannels := fun _ =>
       inr [opened (Some false) 180; opened (Some true) 250;
            opened (Some false) 20; opened None 1000];
     getPendingChainBalance := fun _ => inr 3000;
     balanceFromTokens := fun _ _ toks => Some (fold_left Z.add toks 0) |}.

Definition plain : Args :=
  {| above := None; below := None; is_confirmed := None;
     is_offchain_only := None; is_onchain_only := None;
     lnd := Some (lnd_api "localhost:10009") |}.

Definition onchain_confirmed : Args :=
  {| above := Some 1000; below := None; is_confirmed := Some true;
     is_offchain_only := None; is_onchain_only := Some true;
     lnd := Some (lnd_api "localhost:10009") |}.

End BalanceScenario.

(** ** Specification-level definitions *)
Module Spec.

Local Open Scope Z_scope.

(** The commitment fees of the channels whose [is_partner_initiated] is
    exactly [false], added up channel by channel. *)
Fixpoint own_commit_fees (channels : list GetBalance.Channel.t) : Z :=
  match channels with
  | [] => 0
  | n :: rest =>
      match GetBalance.Channel.is_partner_initiated n with
      | Some false =>
          GetBalance.Channel.commit_transaction_fee n + own_commit_fees rest
      | _ => own_commit_fees rest
      end
  end.

(** The sum of a list of amounts. *)
Fixpoint total (amounts : list Z) : Z :=
  match amounts with
  | [] => 0
  | n :: rest => n + total rest
  end.

(** Whether the wallet-version query of the capability check succeeds. *)
Definition wallet_answers (w : GetRoutesForFunding.World)
    (args : GetRoutesForFunding.Args) : bool :=
  match GetRoutesForFunding.getWalletVersion w (GetRoutesForFunding.lnd args)
  with
  | inl _ => false
  | inr _ => true
  end.

(** An answer of the prober after which the loop must not go on: a hard
    error, or a recorded reason why no further path was found. *)
Definition ends_loop
    (answer : Failure + GetRoutesForFunding.MultiProbeResult.t) : Prop :=
  match answer with
  | inl _ => True
  | inr res => GetRoutesForFunding.MultiProbeResult.error res <> None
  end.

(** The path-count cap of a request. *)
Definition cap (args : GetRoutesForFunding.Args) : Z :=
  js_or (GetRoutesForFunding.max_paths args)
    GetRoutesForFunding.defaultMaxPaths.

(** The fee budget is exceeded: there is one, and the fees are above it. *)
Definition over_budget (fees : Z) (args : GetRoutesForFunding.Args) : Prop :=
  exists budget, GetRoutesForFunding.max_fee args = Some budget /\
                 budget < fees.

(** A prober every answer of which carries a probe or a reason. *)
Definition productive (w : GetRoutesForFunding.World) : Prop :=
  forall n req res,
    GetRoutesForFunding.multiPathProbe w n req = inr res ->
    GetRoutesForFunding.MultiProbeResult.probe res <> None \/
    GetRoutesForFunding.MultiProbeResult.error res <> None.

(** The shared variables when the loop starts. *)
Definition nothing_yet : GetRoutesForFunding.Accumulation :=
  {| GetRoutesForFunding.probes := []; GetRoutesForFunding.error := None |}.

End Spec.

(** ** The chart of chain fees

    The second module of [swaps/get_routes_for_funding.js] (lines 267 to
    520): the validation of its arguments, the choice of the segments of the
    chart, and the selection and the sum of the transactions.  Dates and
    times come from [moment] and [Date]; they are taken from a record of
    oracles.  The queries to the nodes, [feesForSegment] and [formatTokens]
    are not part of the model. *)
Module GetChainFeesChart.

Local Open Scope Z_scope.

Definition daysPerWeek : Z := 7.
Definition defaultDays : Z := 60.
Definition hoursPerDay : Z := 24.
Definition minChartDays : Z := 4.
Definition maxChartDays : Z := 90.

(** A character of the class [[lo-hi]]. *)
Definition in_range (lo hi c : ascii) : bool :=
  (nat_of_ascii lo <=? nat_of_ascii c)%nat
  && (nat_of_ascii c <=? nat_of_ascii hi)%nat.

(** [\d]. *)
Definition is_digit (c : ascii) : bool := in_range "0" "9" c.

(** [(0[1-9]|1[0-2])]. *)
Definition is_month (a b : ascii) : bool :=
  Ascii.eqb a "0" && in_range "1" "9" b
  || Ascii.eqb a "1" && in_range "0" "2" b.

(** [(0[1-9]|[12][0-9]|3[01])]. *)
Definition is_day (a b : ascii) : bool :=
  Ascii.eqb a "0" && in_range "1" "9" b
  || in_range "1" "2" a && in_range "0" "9" b
  || Ascii.eqb a "3" && in_range "0" "1" b.

(** [/^\d{4}-(0[1-9]|1[0-2])-(0[1-9]|[12][0-9]|3[01])$/.test(n)]. *)
Definition isDate (n : string) : bool :=
  match list_ascii_of_string n with
  | [y1; y2; y3; y4; h1; m1; m2; h2; d1; d2] =>
      is_digit y1 && is_digit y2 && is_digit y3 && is_digit y4
      && Ascii.eqb h1 "-" && is_month m1 m2
      && Ascii.eqb h2 "-" && is_day d1 d2
  | _ => false
  end.

(** The function [args.request] is an opaque object. *)
Inductive Request : Type := request_function.

#[export] Instance Truthy_Request : Truthy Request := fun _ => true.

(** [lnds] is [None] when it is not an array; [days] is a whole number of
    days. *)
Record Args := {
  days : option Z;
  end_date : option string;
  is_monochrome : option bool;
  lnds : option (list Lnd);
  request : option Request;
  start_date : option string;
}.

(** A [moment] object, as far as it is used: its ISO string. *)
Record Moment := { toISOString : string }.

(** Dates and time.  [now] is asked more than once and receives the number
    of earlier calls; [parse] is [Date.parse], [None] for NaN; [diff] is
    [moment(a).diff(b, 'days')], where an absent date is the present moment
    and NaN is given as 0 (both are falsy); [ago] is
    [moment().subtract(n, 'days')]. *)
Record Calendar := {
  isValid : string -> bool;
  parse : string -> option Z;
  now : nat -> Z;
  diff : option string -> option string -> Z;
  moment : string -> Moment;
  ago : Z -> Moment;
}.

(** [parseDate(date) > now()]. *)
Definition in_future (cal : Calendar) (date : string) (asked : nat) : bool :=
  match parse cal date with
  | Some t => now cal asked <? t
  | None => false
  end.

Definition expected (reason : string) : Failure + unit :=
  inl (failure 400 reason None).

(** The dates of a request that has one of them; an absent date does not
    get as far as the checks that read it. *)
Definition date_or_empty (date : option string) : string :=
  match date with Some s => s | None => EmptyString end.

Definition validate (cal : Calendar) (args : Args) : Failure + unit :=
  let start := date_or_empty (start_date args) in
  let finish := date_or_empty (end_date args) in
  if negb (truthy (option_map (@List.length Lnd) (lnds args))) then
    expected "ExpectedLndToGetChainFeesChart"
  else if negb (truthy (request args)) then
    expected "ExpectedRequestFunctionToGetChainFees"
  else if negb (truthy (end_date args)) && negb (truthy (start_date args))
  then inr tt
  else if truthy (days args) then
    expected "ExpectedEitherDaysOrDatesToGetChainFeesChart"
  else if truthy (end_date args) && negb (truthy (start_date args)) then
    expected "ExpectedStartDateToRangeToEndDate"
  else if negb (isValid cal start) then
    expected "ExpectedValidEndDateForReceivedChartEndDate"
  else if in_future cal start 0 then
    expected "ExpectedPastStartDateToGetChainFeesChart"
  else if negb (truthy (end_date args)) then inr tt
  else if String.leb finish start then
    expected "ExpectedStartDateBeforeEndDateToGetChainFeesChart"
  else if negb (isDate finish) then
    expected "ExpectedValidDateFormatToForChartEndDate"
  else if negb (isValid cal finish) then
    expected "ExpectedValidEndDateForReceivedChartEndDate"
  else if in_future cal finish 1 then
    expected "ExpectedPastEndDateToGetChainFeesChart"
  else if negb (isDate start) then
    expected "ExpectedValidDateFormatToForChartStartDate"
  else inr tt.

(** The [end] and [start] tasks. *)
Definition end_ (cal : Calendar) (args : Args) : option Moment :=
  match end_date args with
  | Some date => if truthy date then Some (moment cal date) else None
  | None => None
  end.

Definition start (cal : Calendar) (args : Args) : Moment :=
  match start_date args with
  | Some date =>
      if truthy date then moment cal date
      else ago cal (js_or (days args) defaultDays)
  | None => ago cal (js_or (days args) defaultDays)
  end.

(** [moment(a).diff(b, 'days') || 1]. *)
Definition daysBetween (cal : Calendar) (a b : option string) : Z :=
  if truthy (diff cal a b) then diff cal a b else 1.

(** The constant [days] of the [measure] and [segments] tasks. *)
Definition chart_days (cal : Calendar) (args : Args) : Z :=
  if truthy (days args) || truthy (start_date args)
  then js_or (days args)
         (daysBetween cal (end_date args) (start_date args))
  else defaultDays.

Inductive Measure : Type := week | hour | day.

Definition measure (cal : Calendar) (args : Args) : Measure :=
  if maxChartDays <? chart_days cal args then week
  else if chart_days cal args <? minChartDays then hour
  else day.

Definition segments (cal : Calendar) (args : Args) (measure : Measure) : Z :=
  match measure with
  | hour => hoursPerDay * chart_days cal args
  | week => chart_days cal args / daysPerWeek
  | day => chart_days cal args
  end.

(** A chain transaction, as far as it is read. *)
Module Tx.
Record t := {
  created_at : string;
  fee : option Z;
  is_confirmed : option bool;
}.
End Tx.

(** The test of the filter of the [transactions] task.  With [end_date]
    the [end] task has a moment; the case without one does not arise. *)
Definition kept (args : Args) (end_ : option Moment) (start : Moment)
    (tx : Tx.t) : bool :=
  if negb (truthy (Tx.is_confirmed tx)) then false
  else if negb (truthy (end_date args)) then
    truthy (Tx.fee tx) && String.ltb (toISOString start) (Tx.created_at tx)
  else
    match end_ with
    | Some finish =>
        truthy (Tx.fee tx)
        && String.ltb (toISOString start) (Tx.created_at tx)
        && String.leb (Tx.created_at tx) (toISOString finish)
    | None => false
    end.

Definition transactions (args : Args) (end_ : option Moment)
    (getTransactions : list Tx.t) (start : Moment) : list Tx.t :=
  filter (kept args end_ start) getTransactions.

(** [transactions.reduce((sum, {fee}) => sum + fee, Number())]; [None] is
    NaN, the sum with a fee that is absent. *)
Definition total (transactions : list Tx.t) : option Z :=
  fold_left
    (fun sum tx =>
       match sum, Tx.fee tx with
       | Some s, Some f => Some (s + f)
       | _, _ => None
       end)
    transactions (Some 0).

End GetChainFeesChart.

(** Dates written with digits. *)
Module Dates.

Definition digit_char (k : nat) : ascii := ascii_of_nat (48 + k).

Definition two_digits (n : nat) : string :=
  String (digit_char (n / 10)) (String (digit_char (n mod 10)) EmptyString).

(** [YYYY-MM-DD] for the four digits of a year, a month and a day. *)
Definition date_string (y1 y2 y3 y4 m d : nat) : string :=
  String (digit_char y1) (String (digit_char y2)
    (String (digit_char y3) (String (digit_char y4)
      (String "-" (two_digits m ++ String "-" (two_digits d)))))).

(** A calendar for the examples: the present is day 19000 (in
    milliseconds), every date is valid and parses to day 18000. *)
Definition calendar : GetChainFeesChart.Calendar :=
  {| GetChainFeesChart.isValid := fun _ => true;
     GetChainFeesChart.parse := fun _ => Some (18000 * 86400000)%Z;
     GetChainFeesChart.now := fun _ => (19000 * 86400000)%Z;
     GetChainFeesChart.diff := fun _ _ => 120%Z;
     GetChainFeesChart.moment := fun s =>
       {| GetChainFeesChart.toISOString := (s ++ "T00:00:00.000Z")%string |};
     GetChainFeesChart.ago := fun _ =>
       {| GetChainFeesChart.toISOString := "2021-01-01T00:00:00.000Z" |} |}.

Definition chart_request (count : option Z) (first last : option string)
  : GetChainFeesChart.Args :=
  {| GetChainFeesChart.days := count;
     GetChainFeesChart.end_date := last;
     GetChainFeesChart.is_monochrome := None;
     GetChainFeesChart.lnds := Some [lnd_api "localhost:10009"];
     GetChainFeesChart.request := Some GetChainFeesChart.request_function;
     GetChainFeesChart.start_date := first |}.

Definition paid (at_time : string) (amount : option Z)
    (confirmed : option bool) : GetChainFeesChart.Tx.t :=
  {| GetChainFeesChart.Tx.created_at := at_time;
     GetChainFeesChart.Tx.fee := amount;
     GetChainFeesChart.Tx.is_confirmed := confirmed |}.

End Dates.

(** ** Further concrete requests and collaborators *)
Module Cases.
Import GetRoutesForFunding Scenario.

Local Open Scope string_scope.
Local Open Scope Z_scope.

(** Scenario A without a logger. *)
Definition no_logger : Args :=
  {| cltv_delta := cltv_delta request;
     destination := destination request;
     features := features request;
     ignore := ignore request;
     in_through := in_through request;
     lnd := lnd request;
     logger := None;
     max_fee := max_fee request;
     max_paths := max_paths request;
     out_through := out_through request;
     outgoing_channel := outgoing_channel request;
     payment := payment request;
     routes := routes request;
     tokens := tokens request |}.

(** Scenario A with a negative path count, and with a path count of 0. *)
Definition negative_paths : Args := with_max_paths (Some (-1)) request.
Definition zero_paths : Args := with_max_paths (Some 0) request.

(** A prober that finds no path at all. *)
Definition no_path : World := with_multiPathProbe (fun _ _ => no_more) world.

(** A prober that never finds a path and never says why. *)
Definition mute : World :=
  with_multiPathProbe
    (fun _ _ => inr {| MultiProbeResult.probe := None;
                       MultiProbeResult.error := None |})
    world.

(** A prober whose first answer carries a path together with the reason
    why there is no further one. *)
Definition last_path : World :=
  with_multiPathProbe
    (fun _ _ =>
       inr {| MultiProbeResult.probe := Some (probe "700001x1x0" 120000);
              MultiProbeResult.error :=
                Some (failure 503 "RoutingFailureAttemptingMultiProbe" None) |})
    world.

(** A Route Synthesizer whose two routes cost 1300 together. *)
Definition costly_multi : World :=
  with_multiPathPayment
    (inr [route "700001x1x0" 60000 900; route "700002x1x0" 40000 400]) world.

(** Two probes that share a channel. *)
Definition shared_channel (n : nat) (req : MultiProbeRequest.t)
  : Failure + MultiProbeResult.t :=
  match n with
  | 0%nat =>
      found {| Probe.latency_ms := 100;
               Probe.relays := ["03bb"];
               Probe.route_maximum := 90000;
               Probe.success := ["700001x1x0"; "700009x1x0"] |}
  | 1%nat =>
      found {| Probe.latency_ms := 100;
               Probe.relays := ["03cc"];
               Probe.route_maximum := 60000;
               Probe.success := ["700002x1x0"; "700009x1x0"] |}
  | _ => no_more
  end.

(** A node that does not know the channel [700009x1x0]. *)
Definition unknown_channel : World :=
  {| getWalletVersion := getWalletVersion world;
     executeProbe := executeProbe world;
     multiPathProbe := shared_channel;
     getChannel := fun id l =>
       if String.eqb id "700009x1x0"
       then inl (failure 404 "FullChannelDetailsNotFound" None)
       else channel_info id l;
     getWalletInfo := getWalletInfo world;
     multiPathPayment := multiPathPayment world |}.

(** A node that does not answer the query of the block height. *)
Definition no_height : World :=
  {| getWalletVersion := getWalletVersion world;
     executeProbe := executeProbe world;
     multiPathProbe := multiPathProbe world;
     getChannel := getChannel world;
     getWalletInfo := fun _ => inl unavailable;
     multiPathPayment := multiPathPayment world |}.

End Cases.

(** ** Further specification-level definitions *)
Module Derived.
Import GetRoutesForFunding.

Local Open Scope Z_scope.

(** The number that a decimal string of millitokens denotes. *)
Definition mtokens_value (s : string) : option Z :=
  option_map Z.of_int (NilZero.int_of_string s).

(** The probe, if any, that the prober answered to a call. *)
Definition answered_probe (w : World) (ev : Event) : option Probe.t :=
  match ev with
  | EvMultiPathProbe n req =>
      match multiPathProbe w n req with
      | inr res => MultiProbeResult.probe res
      | inl _ => None
      end
  | _ => None
  end.

(** The probes answered to a sequence of calls, in the order of the calls. *)
Definition collected (w : World) (calls : list Event) : list Probe.t :=
  compact (map (answered_probe w) calls).

(** The answer of a prober that neither finds a path nor says why. *)
Definition silent : MultiProbeResult.t :=
  {| MultiProbeResult.probe := None; MultiProbeResult.error := None |}.

(** The channel identifiers that the summaries of the limits refer to. *)
Definition channel_ids (lim : Limits.t) : list string :=
  flatten (map Summary.channels (Limits.probes lim)).

(** The argument that [getMultiPaths] builds for [multiPathPayment]. *)
Definition paymentRequest (args : Args) (lim : Limits.t)
    (channels : list ChannelInfo.t) (info : WalletInfo.t) (mtok : string)
  : PaymentRequest.t :=
  {| PaymentRequest.channels := channels;
     PaymentRequest.cltv_delta := cltv_delta args;
     PaymentRequest.destination := destination args;
     PaymentRequest.height := WalletInfo.current_block_height info;
     PaymentRequest.max := Limits.routes_max lim;
     PaymentRequest.mtokens := mtok;
     PaymentRequest.payment := payment args;
     PaymentRequest.probes := Limits.probes lim |}.

(** The array [balances] that the [balance] task of [get_balance] hands to
    [balanceFromTokens]. *)
Definition balances (args : GetBalance.Args) (chain_balance : Z)
    (getChanBalance : GetBalance.ChannelBalance.t)
    (channels : list GetBalance.Channel.t) (pending_chain_balance : Z)
  : list Z :=
  [ if truthy (GetBalance.is_offchain_only args) then GetBalance.none
    else chain_balance;
    if truthy (GetBalance.is_onchain_only args) then GetBalance.none
    else GetBalance.ChannelBalance.channel_balance getChanBalance;
    if truthy (GetBalance.is_onchain_only args) then GetBalance.none
    else - GetBalance.futureCommitFees channels;
    if truthy (GetBalance.is_offchain_only args)
       || truthy (GetBalance.is_confirmed args)
    then GetBalance.none else pending_chain_balance;
    if truthy (GetBalance.is_onchain_only args)
       || truthy (GetBalance.is_confirmed args)
    then GetBalance.none
    else GetBalance.ChannelBalance.pending_balance getChanBalance ].

End Derived.

(** * Properties *)

(** ** Tasks *)
Section TaskFacts.
Context {Ev : Type}.

Lemma bind_ok A B (m : Task Ev A) (k : A -> Task Ev B) b t :
  bind m k = (Ok b, t) ->
  exists a t1 t2, m = (Ok a, t1) /\ k a = (Ok b, t2) /\ t = t1 ++ t2.
Proof.
  unfold bind. destruct m as [[a | e |] t1]; try discriminate.
  destruct (k a) as [r t2] eqn:Hk. intros H. inversion H; subst.
  now exists a, t1, t2.
Qed.

Lemma bind_ret A B (a : A) (k : A -> Task Ev B) : bind (ret a) k = k a.
Proof. unfold bind, ret. now destruct (k a). Qed.

Lemma bind_step A B (m : Task Ev A) (k : A -> Task Ev B) a t1 :
  m = (Ok a, t1) -> bind m k = (fst (k a), t1 ++ snd (k a)).
Proof. intros ->. unfold bind. now destruct (k a). Qed.

Lemma both_ok A B (a : Task Ev A) (b : Task Ev B) x y t :
  both a b = (Ok (x, y), t) ->
  exists ta tb, a = (Ok x, ta) /\ b = (Ok y, tb) /\ t = ta ++ tb.
Proof.
  unfold both. destruct a as [[x' | e |] ta], b as [[y' | e' |] tb];
    try discriminate.
  intros H. inversion H; subst. now exists ta, tb.
Qed.

Lemma call_ok A (ev : Ev) (r : Failure + A) a t :
  call ev r = (Ok a, t) -> r = inr a /\ t = [ev].
Proof. destruct r; simpl; intros H; inversion H; now subst. Qed.

(** Tasks whose callback is invoked. *)
Lemma bind_settles A B (m : Task Ev A) (k : A -> Task Ev B) :
  fst m <> Pending -> (forall a, fst (k a) <> Pending) ->
  fst (bind m k) <> Pending.
Proof.
  unfold bind. destruct m as [[a | e |] t]; simpl; intros Hm Hk;
    try congruence.
  specialize (Hk a). now destruct (k a).
Qed.

Lemma call_settles A (ev : Ev) (r : Failure + A) : fst (call ev r) <> Pending.
Proof. destruct r; discriminate. Qed.

Lemma both_settles A B (a : Task Ev A) (b : Task Ev B) :
  fst a <> Pending -> fst b <> Pending -> fst (both a b) <> Pending.
Proof.
  unfold both. destruct a as [[x | e |] ta], b as [[y | e' |] tb]; simpl;
    congruence.
Qed.

Lemma asyncMap_settles A B (coll : list A) (iteratee : A -> Task Ev B) :
  (forall x, fst (iteratee x) <> Pending) ->
  fst (asyncMap coll iteratee) <> Pending.
Proof.
  intros Hi. induction coll as [| x rest IH]; simpl; [discriminate |].
  pose proof (both_settles _ _ (iteratee x) (asyncMap rest iteratee)
                (Hi x) IH) as Hb.
  destruct (both (iteratee x) (asyncMap rest iteratee))
    as [[[y ys] | e |] t]; simpl in *; congruence.
Qed.

(** The wrapper of an [async] function changes the error only. *)
Lemma asyncify_settles A (t : Task Ev A) :
  fst t <> Pending -> fst (asyncify t) <> Pending.
Proof. destruct t as [[a | e |] tr]; simpl; congruence. Qed.

Lemma asyncify_ok A (t : Task Ev A) a tr :
  asyncify t = (Ok a, tr) <-> t = (Ok a, tr).
Proof.
  destruct t as [[a' | e |] tr']; simpl; split; intros H; try discriminate;
    exact H.
Qed.

Lemma asyncify_calls A (t : Task Ev A) : snd (asyncify t) = snd t.
Proof. now destruct t as [[a | e |] tr]. Qed.

Lemma asyncify_call A (ev : Ev) (r : Failure + A) :
  asyncify (call ev r) = call ev (rejected r).
Proof. now destruct r. Qed.

Lemma asyncify_fail A (t : Task Ev A) e tr :
  t = (Fail e, tr) -> asyncify t = (Fail (rejection e), tr).
Proof. now intros ->. Qed.

Lemma rejected_ok A (r : Failure + A) a : rejected r = inr a <-> r = inr a.
Proof. destruct r; simpl; split; intros H; try discriminate; exact H. Qed.

Lemma asyncMap_ext A B (coll : list A) (f g : A -> Task Ev B) :
  (forall x, f x = g x) -> asyncMap coll f = asyncMap coll g.
Proof.
  intros Hfg. induction coll as [| x rest IH]; simpl; trivial.
  now rewrite Hfg, IH.
Qed.

Lemma rejection_twice e : rejection (rejection e) = rejection e.
Proof. now destruct e. Qed.

End TaskFacts.

(** ** The balance *)
Module BalanceFacts.
Import GetBalance.

Local Open Scope Z_scope.

Lemma fold_commit_fees channels acc :
  fold_left (fun sum n => sum + Channel.commit_transaction_fee n)
    (filter is_own_initiated channels) acc
  = acc + Spec.own_commit_fees channels.
Proof.
  revert acc. induction channels as [| n rest IH]; intros acc; simpl.
  - lia.
  - unfold is_own_initiated at 1.
    destruct (Channel.is_partner_initiated n) as [[|] |]; simpl;
      rewrite IH; lia.
Qed.

Lemma futureCommitFees_spec channels :
  futureCommitFees channels = Spec.own_commit_fees channels.
Proof. unfold futureCommitFees. now rewrite fold_commit_fees. Qed.

(** What a successful call went through. *)
Lemma get_balance_ok nd args res tr :
  get_balance nd args = (Ok res, tr) ->
  exists chan chans,
    getChannelBalance nd (lnd args) = inr chan /\
    getChannels nd (lnd args) = inr chans /\
    Result.channel_balance res
      = ChannelBalance.channel_balance chan - futureCommitFees chans.
Proof.
  unfold get_balance. intros H.
  apply bind_ok in H as (_ & t0 & t1 & _ & H & _).
  rewrite bind_ret in H.
  apply bind_ok in H as ([chain [chan [chans pend]]] & t2 & t3 & Hr & H & _).
  apply both_ok in Hr as (ta & tb & _ & Hr & _).
  apply both_ok in Hr as (tc & td & Hchan & Hr & _).
  apply both_ok in Hr as (te & tf & Hchans & _ & _).
  apply call_ok in Hchan as [Hchan _]. apply call_ok in Hchans as [Hchans _].
  exists chan, chans. repeat split; trivial.
  unfold balance in H.
  destruct (balanceFromTokens nd _ _ _); [| discriminate].
  inversion H. reflexivity.
Qed.

(** C10.  A successful call returns as [channel_balance] the channel balance
    that the node reports, minus the commitment fees of exactly the channels
    whose [is_partner_initiated] is [false]; a second successful call on the
    same node that differs in [above], [below], [is_confirmed],
    [is_onchain_only] and [is_offchain_only] returns the same
    [channel_balance]. *)
Theorem C10_channel_balance nd args res tr :
  get_balance nd args = (Ok res, tr) ->
  (exists chan chans,
     getChannelBalance nd (lnd args) = inr chan /\
     getChannels nd (lnd args) = inr chans /\
     Result.channel_balance res
       = ChannelBalance.channel_balance chan - Spec.own_commit_fees chans) /\
  (forall up down confirmed offchain onchain res' tr',
     get_balance nd
       {| above := up; below := down; is_confirmed := confirmed;
          is_offchain_only := offchain; is_onchain_only := onchain;
          lnd := lnd args |} = (Ok res', tr') ->
     Result.channel_balance res' = Result.channel_balance res).
Proof.
  intros H. apply get_balance_ok in H as (chan & chans & Hc & Hs & Hres).
  split.
  - exists chan, chans. now rewrite <- futureCommitFees_spec.
  - intros up down confirmed offchain onchain res' tr' H'.
    apply get_balance_ok in H' as (chan' & chans' & Hc' & Hs' & Hres').
    simpl in Hc', Hs'. congruence.
Qed.

(** The scenario: 200000 in channels, commitment fees 180 and 20 on own
    channels; the options change [balance] only. *)
Lemma C10_channel_balance_witness :
  get_balance BalanceScenario.node BalanceScenario.plain
    = (Ok {| Result.balance := 259800; Result.channel_balance := 199800 |},
       [EvGetChainBalance; EvGetChannelBalance; EvGetChannels;
        EvGetPendingChainBalance]) /\
  Result.channel_balance
    {| Result.balance := 50000; Result.channel_balance := 199800 |}
  = Result.channel_balance
      {| Result.balance := 259800; Result.channel_balance := 199800 |}.
Proof.
  split; [reflexivity |].
  destruct (C10_channel_balance BalanceScenario.node BalanceScenario.plain
              {| Result.balance := 259800; Result.channel_balance := 199800 |}
              [EvGetChainBalance; EvGetChannelBalance; EvGetChannels;
               EvGetPendingChainBalance] eq_refl) as [_ Hopt].
  exact (Hopt (Some 1000) None (Some true) None (Some true)
           {| Result.balance := 50000; Result.channel_balance := 199800 |}
           [EvGetChainBalance; EvGetChannelBalance; EvGetChannels;
            EvGetPendingChainBalance] eq_refl).
Defined.

End BalanceFacts.

(** ** The routes *)
Module RoutesFacts.
Import GetRoutesForFunding.

Local Open Scope Z_scope.

Lemma sumOf_from (arr : list Z) (acc : Z) :
  fold_left Z.add arr acc = acc + Spec.total arr.
Proof.
  revert acc. induction arr as [| n rest IH]; intros acc; simpl.
  - lia.
  - rewrite IH. lia.
Qed.

Lemma sumOf_total (arr : list Z) : sumOf arr = Spec.total arr.
Proof. unfold sumOf. now rewrite sumOf_from. Qed.

(** *** The model on the end-to-end scenarios *)

Example find_max_value : find_max = 16609442.
Proof. reflexivity. Qed.

Example tokensAsMtokens_request :
  tokensAsMtokens (Some 100000) = inr "100000000"%string.
Proof. reflexivity. Qed.

Example uniq_keeps_first_occurrences :
  uniq ["b"; "a"; "b"; "c"; "a"]%string = ["b"; "a"; "c"]%string.
Proof. reflexivity. Qed.

(** Scenario A: the two multi-path routes are selected, total fee 300. *)
Example scenario_A :
  fst (get_routes_for_funding 10 Scenario.world Scenario.request)
  = Ok {| Result.fee := 300;
          Result.routes := [Scenario.route "700001x1x0" 60000 200;
                            Scenario.route "700002x1x0" 40000 100] |}.
Proof. reflexivity. Qed.

(** Scenario B: without multi-path support, the single path, fee 500. *)
Example scenario_B :
  fst (get_routes_for_funding 10 Scenario.old_wallet Scenario.request)
  = Ok {| Result.fee := 500; Result.routes := [Scenario.single] |}.
Proof. reflexivity. Qed.

(** Scenario C: with a budget of 100 the request fails. *)
Example scenario_C :
  fst (get_routes_for_funding 10 Scenario.world Scenario.small_budget)
  = Fail (failure 503 "FailedToFindAPathToFundSwapOffchain" None).
Proof. reflexivity. Qed.

(** *** Validation *)

Lemma validate_cases args :
  validate args = ret tt \/
  exists reason, validate args = fail (failure 400 reason None).
Proof.
  unfold validate.
  repeat match goal with
         | |- context [if negb ?b then _ else _] => destruct b; simpl
         end; eauto.
Qed.

Lemma validate_passes args :
  truthy (cltv_delta args) = true ->
  truthy (destination args) = true ->
  truthy (lnd args) = true ->
  truthy (logger args) = true ->
  truthy (tokens args) = true ->
  validate args = ret tt.
Proof. unfold validate. now intros -> -> -> -> ->. Qed.

Lemma validate_checked args :
  validate args = ret tt ->
  truthy (cltv_delta args) = true /\
  truthy (destination args) = true /\
  truthy (lnd args) = true /\
  truthy (logger args) = true /\
  truthy (tokens args) = true.
Proof.
  unfold validate.
  destruct (truthy (cltv_delta args)); [| discriminate].
  destruct (truthy (destination args)); [| discriminate].
  destruct (truthy (lnd args)); [| discriminate].
  destruct (truthy (logger args)); [| discriminate].
  destruct (truthy (tokens args)); [| discriminate].
  now intros _.
Qed.

Lemma validate_rejects args :
  truthy (cltv_delta args) = false \/
  truthy (destination args) = false \/
  truthy (tokens args) = false ->
  exists reason, validate args = fail (failure 400 reason None).
Proof.
  intros H. destruct (validate_cases args) as [Hok | Hno]; [| exact Hno].
  apply validate_checked in Hok as (H1 & H2 & _ & _ & H5).
  destruct H as [H | [H | H]]; congruence.
Qed.

(** The amount of a validated request converts to millitokens. *)
Lemma validated_mtokens args :
  validate args = ret tt ->
  exists total, tokensAsMtokens (tokens args) = inr total.
Proof.
  intros H. apply validate_checked in H as (_ & _ & _ & _ & H).
  destruct (tokens args) as [n |]; [| discriminate].
  simpl. eauto.
Qed.

(** *** The task graph *)

Lemma run_rejected fuel w args e :
  validate args = fail e ->
  get_routes_for_funding fuel w args = (Fail e, []).
Proof. unfold get_routes_for_funding. now intros ->. Qed.

(** A hard error of [executeProbe] ends the graph: [getMultiLimits] waits
    for [getSinglePath] and is never started. *)
Lemma run_probe_error fuel w args total err :
  validate args = ret tt ->
  tokensAsMtokens (tokens args) = inr total ->
  executeProbe w (singlePathRequest args total) = inl err ->
  get_routes_for_funding fuel w args
  = (Fail (failure 503 "UnexpectedErrorFindingRouteToFundSwap" (Some err)),
     [EvGetWalletVersion; EvExecuteProbe (singlePathRequest args total)]).
Proof.
  intros Hv Ht He.
  unfold get_routes_for_funding, getSinglePath, getMultiSupport.
  rewrite Hv, Ht, He. reflexivity.
Qed.

(** When [executeProbe] answers, the graph goes on with the selection. *)
Lemma run_selects fuel w args total single :
  validate args = ret tt ->
  tokensAsMtokens (tokens args) = inr total ->
  executeProbe w (singlePathRequest args total) = inr single ->
  get_routes_for_funding fuel w args
  = (fst (select fuel w args (Spec.wallet_answers w args) single),
     EvGetWalletVersion :: EvExecuteProbe (singlePathRequest args total)
       :: snd (select fuel w args (Spec.wallet_answers w args) single)).
Proof.
  intros Hv Ht He.
  unfold get_routes_for_funding, getSinglePath, getMultiSupport.
  rewrite Hv, Ht, He. unfold Spec.wallet_answers. simpl.
  now destruct (select _ _ _ _ _).
Qed.

Lemma result_silent args multi single : snd (result args multi single) = [].
Proof. unfold result. now destruct (_ || _). Qed.

Lemma select_steps fuel w args supported single lim t1 multi t2 :
  getMultiLimits fuel w args supported single = (Ok lim, t1) ->
  getMultiPaths w args lim = (Ok multi, t2) ->
  select fuel w args supported single
  = (fst (result args multi single), t1 ++ t2).
Proof.
  intros Hl Hp. unfold select. rewrite Hl. simpl. rewrite Hp. simpl.
  pose proof (result_silent args multi single) as Hs.
  destruct (result args multi single) as [r t]. simpl in *. subst.
  now rewrite app_nil_r.
Qed.

(** *** The selection *)

Lemma result_fails args multi single :
  paths multi single = [] \/
  js_gt (sumOf (map Route.fee (paths multi single))) (max_fee args) = true ->
  result args multi single
  = fail (failure 503 "FailedToFindAPathToFundSwapOffchain" None).
Proof.
  unfold result. intros [H | H].
  - now rewrite H.
  - rewrite H. now rewrite orb_true_r.
Qed.

Lemma result_returns args multi single :
  paths multi single <> [] ->
  js_gt (sumOf (map Route.fee (paths multi single))) (max_fee args) = false ->
  result args multi single
  = ret {| Result.fee := sumOf (map Route.fee (paths multi single));
           Result.routes := paths multi single |}.
Proof.
  unfold result. intros Hne ->.
  destruct (paths multi single); [congruence | reflexivity].
Qed.

Lemma result_single args single r :
  ProbeResult.route single = Some r ->
  js_gt (Route.fee r) (max_fee args) = false ->
  result args None single
  = ret {| Result.fee := Route.fee r; Result.routes := [r] |}.
Proof.
  intros Hr Hfee.
  assert (Hp : paths None single = [r]) by (unfold paths; now rewrite Hr).
  rewrite result_returns; rewrite Hp; try discriminate; trivial.
Qed.

Lemma result_single_only args single r res :
  ProbeResult.route single = Some r ->
  fst (result args None single) = Ok res ->
  res = {| Result.fee := Route.fee r; Result.routes := [r] |}.
Proof.
  intros Hr. unfold result, paths. rewrite Hr. simpl.
  destruct (js_gt _ _); simpl; intros H; now inversion H.
Qed.


Lemma over_budget_gt fees args :
  Spec.over_budget fees args <-> js_gt fees (max_fee args) = true.
Proof.
  unfold Spec.over_budget, js_gt. split.
  - intros (budget & -> & H). now apply Z.ltb_lt.
  - destruct (max_fee args) as [budget |]; [| discriminate].
    intros H. exists budget. split; trivial. now apply Z.ltb_lt.
Qed.

Lemma within_budget_gt fees args :
  ~ Spec.over_budget fees args <-> js_gt fees (max_fee args) = false.
Proof.
  rewrite over_budget_gt. destruct (js_gt fees (max_fee args)); split;
    congruence.
Qed.

(** *** Claims on validation and on the single path *)

(** C1 (amended).  A request whose CLTV delta, destination or amount is
    missing (or falsy) fails with a class-400 error and no collaborator has
    been called.  The fee budget is not among the checked fields: a request
    with [cltv_delta], [destination], [lnd], [logger] and [tokens] passes
    validation whatever [max_fee] is. *)
Theorem C1_validation_before_calls fuel w args :
  (truthy (cltv_delta args) = false \/
   truthy (destination args) = false \/
   truthy (tokens args) = false ->
   exists reason,
     get_routes_for_funding fuel w args
     = (Fail (failure 400 reason None), [])) /\
  (truthy (cltv_delta args) = true ->
   truthy (destination args) = true ->
   truthy (lnd args) = true ->
   truthy (logger args) = true ->
   truthy (tokens args) = true ->
   validate args = ret tt).
Proof.
  split.
  - intros H. apply validate_rejects in H as [reason H].
    exists reason. now apply run_rejected.
  - apply validate_passes.
Qed.

Lemma C1_validation_before_calls_witness :
  (exists reason,
     get_routes_for_funding 10 Scenario.world Scenario.no_cltv_delta
     = (Fail (failure 400 reason None), [])) /\
  validate Scenario.no_budget = ret tt.
Proof.
  split.
  - apply (proj1 (C1_validation_before_calls 10 Scenario.world
                    Scenario.no_cltv_delta)).
    left. reflexivity.
  - apply (proj2 (C1_validation_before_calls 10 Scenario.world
                    Scenario.no_budget));
      reflexivity.
Defined.

(** C1 as stated fails: the request of the scenario without a fee budget is
    not rejected; the collaborators are called and two routes are
    returned. *)
Lemma C1_counterexample :
  max_fee Scenario.no_budget = None /\
  (exists res tr,
     get_routes_for_funding 10 Scenario.world
       Scenario.no_budget = (Ok res, tr) /\
     Result.fee res = 300 /\ length tr = 9%nat) /\
  ~ (exists reason context,
       get_routes_for_funding 10 Scenario.world
         Scenario.no_budget
       = (Fail (failure 400 reason context), [])).
Proof.
  split; [reflexivity |]. split.
  - eexists. eexists. split; [vm_compute; reflexivity |].
    split; reflexivity.
  - intros (reason & context & H). vm_compute in H. discriminate.
Qed.

(** C3 (amended).  A hard error of the Probe Executor aborts the request:
    it fails with the class-503 error
    [UnexpectedErrorFindingRouteToFundSwap] that carries the error of the
    prober, and after the wallet-version query and the probe itself no
    collaborator is called, so the multi-path branch is not attempted.
    When the Probe Executor answers, with a route or without one, the
    request goes on with the multi-path branch and the selection. *)
Theorem C3_probe_error_aborts fuel w args total :
  validate args = ret tt ->
  tokensAsMtokens (tokens args) = inr total ->
  (forall err,
     executeProbe w (singlePathRequest args total) = inl err ->
     get_routes_for_funding fuel w args
     = (Fail (failure 503 "UnexpectedErrorFindingRouteToFundSwap" (Some err)),
        [EvGetWalletVersion;
         EvExecuteProbe (singlePathRequest args total)])) /\
  (forall single,
     executeProbe w (singlePathRequest args total) = inr single ->
     get_routes_for_funding fuel w args
     = (fst (select fuel w args (Spec.wallet_answers w args) single),
        EvGetWalletVersion :: EvExecuteProbe (singlePathRequest args total)
          :: snd (select fuel w args (Spec.wallet_answers w args) single))).
Proof.
  intros Hv Ht. split.
  - intros err He. now apply run_probe_error.
  - intros single He. now apply run_selects.
Qed.

Lemma C3_probe_error_aborts_witness :
  get_routes_for_funding 10 Scenario.probe_down Scenario.request
  = (Fail (failure 503 "UnexpectedErrorFindingRouteToFundSwap"
             (Some Scenario.unavailable)),
     [EvGetWalletVersion;
      EvExecuteProbe (singlePathRequest Scenario.request "100000000")]).
Proof.
  apply (proj1 (C3_probe_error_aborts 10 Scenario.probe_down
                  Scenario.request "100000000" eq_refl eq_refl)).
  reflexivity.
Defined.

(** C3 as stated fails: in scenario A with a Probe Executor that cannot
    reach the node, the multi-path branch would deliver two routes within
    the budget, yet the request fails with the error of the single path and
    the Multi-Path Prober is never called. *)
Lemma C3_counterexample :
  (exists multi t,
     select 10 Scenario.probe_down Scenario.request true
       {| ProbeResult.route := None |}
     = (Ok multi, t) /\ Result.fee multi = 300) /\
  fst (get_routes_for_funding 10 Scenario.probe_down Scenario.request)
  = Fail (failure 503 "UnexpectedErrorFindingRouteToFundSwap"
            (Some Scenario.unavailable)) /\
  (forall n req,
     ~ In (EvMultiPathProbe n req)
         (snd (get_routes_for_funding 10 Scenario.probe_down
                 Scenario.request))).
Proof.
  split; [| split].
  - eexists. eexists. split; [vm_compute; reflexivity | reflexivity].
  - reflexivity.
  - intros n req H. vm_compute in H.
    destruct H as [H | [H | []]]; discriminate.
Qed.

(** C4.  When the chosen routes are none, or their fees add up to more
    than the fee budget, the selection fails with the class-503 error
    [FailedToFindAPathToFundSwapOffchain]; otherwise it returns the chosen
    routes with the sum of their fees.  So does the request: its outcome is
    that of the selection, and a result it returns has at least one route,
    the sum of the routes' fees as [fee], and is within the budget. *)
Theorem C4_selection fuel w args :
  (forall multi single,
     (paths multi single = [] \/
      Spec.over_budget (Spec.total (map Route.fee (paths multi single))) args ->
      result args multi single
      = fail (failure 503 "FailedToFindAPathToFundSwapOffchain" None)) /\
     (paths multi single <> [] ->
      ~ Spec.over_budget
          (Spec.total (map Route.fee (paths multi single))) args ->
      result args multi single
      = ret {| Result.fee := Spec.total (map Route.fee (paths multi single));
               Result.routes := paths multi single |})) /\
  (forall total single lim t1 multi t2,
     validate args = ret tt ->
     tokensAsMtokens (tokens args) = inr total ->
     executeProbe w (singlePathRequest args total) = inr single ->
     getMultiLimits fuel w args (Spec.wallet_answers w args) single
     = (Ok lim, t1) ->
     getMultiPaths w args lim = (Ok multi, t2) ->
     fst (get_routes_for_funding fuel w args)
     = fst (result args multi single)) /\
  (forall res tr,
     get_routes_for_funding fuel w args = (Ok res, tr) ->
     Result.routes res <> [] /\
     Result.fee res = Spec.total (map Route.fee (Result.routes res)) /\
     ~ Spec.over_budget (Result.fee res) args).
Proof.
  split; [| split].
  - intros multi single. rewrite <- sumOf_total. split.
    + intros [H | H]; apply result_fails; [now left | right].
      now apply over_budget_gt.
    + intros Hne Hb. apply result_returns; trivial.
      now apply within_budget_gt.
  - intros total single lim t1 multi t2 Hv Ht He Hl Hp.
    rewrite (run_selects fuel w args total single Hv Ht He). simpl.
    now rewrite (select_steps fuel w args _ single lim t1 multi t2 Hl Hp).
  - intros res tr H. unfold get_routes_for_funding in H.
    apply bind_ok in H as (? & ? & ? & _ & H & _).
    apply bind_ok in H as (started & ? & ? & _ & H & _).
    unfold select in H.
    apply bind_ok in H as (lim & ? & ? & _ & H & _).
    apply bind_ok in H as (multi & ? & ? & _ & H & _).
    unfold result in H.
    destruct (paths multi (snd started)) as [| r rs] eqn:Hp;
      [discriminate |].
    simpl in H.
    destruct (js_gt _ _) eqn:Hb; [discriminate |].
    inversion H; subst. cbn [Result.fee Result.routes].
    split; [discriminate | split].
    + rewrite sumOf_total. reflexivity.
    + now apply within_budget_gt.
Qed.

Lemma C4_selection_witness :
  result Scenario.small_budget None
    {| ProbeResult.route := Some Scenario.single |}
  = fail (failure 503 "FailedToFindAPathToFundSwapOffchain" None) /\
  result Scenario.request None {| ProbeResult.route := Some Scenario.single |}
  = ret {| Result.fee := 500; Result.routes := [Scenario.single] |} /\
  fst (get_routes_for_funding 10 Scenario.world Scenario.request)
  = Ok {| Result.fee := 300;
          Result.routes := [Scenario.route "700001x1x0" 60000 200;
                            Scenario.route "700002x1x0" 40000 100] |} /\
  ~ Spec.over_budget 300 Scenario.request.
Proof.
  split; [| split; [| split]].
  - apply (proj1 (proj1 (C4_selection 10 Scenario.world
                           Scenario.small_budget)
                    None {| ProbeResult.route := Some Scenario.single |})).
    right. exists 100. split; [reflexivity | simpl; lia].
  - apply (proj2 (proj1 (C4_selection 10 Scenario.world Scenario.request)
                    None {| ProbeResult.route := Some Scenario.single |})).
    + discriminate.
    + intros (budget & Hb & Hlt). inversion Hb; subst. simpl in Hlt. lia.
  - rewrite (proj1 (proj2 (C4_selection 10 Scenario.world Scenario.request))
               "100000000"%string
               {| ProbeResult.route := Some Scenario.single |}
               _ _ _ _ eq_refl eq_refl eq_refl eq_refl eq_refl).
    reflexivity.
  - apply (proj2 (proj2 (C4_selection 10 Scenario.world Scenario.request))
             {| Result.fee := 300;
                Result.routes := [Scenario.route "700001x1x0" 60000 200;
                                  Scenario.route "700002x1x0" 40000 100] |}
             (snd (get_routes_for_funding 10 Scenario.world
                     Scenario.request))).
    reflexivity.
Defined.


(** *** The accumulation loop *)

(** [args.max_paths || defaultMaxPaths] is never zero. *)
Lemma cap_nonzero args : Spec.cap args <> 0.
Proof.
  unfold Spec.cap, js_or, defaultMaxPaths.
  destruct (max_paths args) as [n |]; [| discriminate].
  change (truthy n) with (negb (n =? 0)).
  destruct (Z.eqb_spec n 0); simpl; [discriminate | trivial].
Qed.

Lemma test_true args acc :
  test args acc = true ->
  Spec.cap args <> Z.of_nat (length (probes acc)) /\ error acc = None.
Proof.
  unfold test. fold (Spec.cap args).
  destruct (Z.eqb_spec (Spec.cap args) (Z.of_nat (length (probes acc))));
    [discriminate |].
  destruct (error acc); [discriminate |]. now split.
Qed.

Lemma test_false args acc :
  test args acc = false ->
  Spec.cap args = Z.of_nat (length (probes acc)) \/ error acc <> None.
Proof.
  unfold test. fold (Spec.cap args).
  destruct (Z.eqb_spec (Spec.cap args) (Z.of_nat (length (probes acc))));
    [now left |].
  destruct (error acc); [right; discriminate | discriminate].
Qed.

Lemma record_answer_length acc res :
  (length (probes acc) <= length (probes (record_answer acc res))
   <= S (length (probes acc)))%nat.
Proof.
  unfold record_answer. simpl.
  destruct (MultiProbeResult.probe res); [rewrite length_app; simpl |]; lia.
Qed.

Lemma record_answer_progress acc res :
  MultiProbeResult.probe res <> None ->
  length (probes (record_answer acc res)) = S (length (probes acc)).
Proof.
  unfold record_answer. simpl.
  destruct (MultiProbeResult.probe res); [| congruence].
  intros _. rewrite length_app. simpl. lia.
Qed.

Lemma record_answer_reason acc res :
  MultiProbeResult.error res <> None ->
  error (record_answer acc res) <> None.
Proof.
  unfold record_answer. simpl.
  destruct (MultiProbeResult.error res); [simpl | congruence].
  discriminate.
Qed.

(** With a recorded reason the test fails: nothing more is called. *)
Lemma asyncWhilst_recorded w args fuel n acc :
  error acc <> None -> snd (asyncWhilst w args fuel n acc) = [].
Proof.
  intros He. destruct fuel as [| fuel]; simpl; trivial.
  destruct (test args acc) eqn:Ht; trivial.
  apply test_true in Ht as [_ Ht]. congruence.
Qed.

Ltac loop_step w n args acc :=
  destruct (multiPathProbe w n (multiPathRequest args acc)) as [hard | res]
    eqn:Hanswer.

Lemma asyncWhilst_bounded w args fuel : forall n acc out tr,
  Z.of_nat (length (probes acc)) <= Spec.cap args ->
  asyncWhilst w args fuel n acc = (out, tr) ->
  (forall m req,
     In (EvMultiPathProbe m req) tr ->
     Z.of_nat (length (MultiProbeRequest.probes req)) < Spec.cap args) /\
  (forall err acc',
     out = Ok (err, acc') ->
     Z.of_nat (length (probes acc')) <= Spec.cap args).
Proof.
  induction fuel as [| fuel IH]; intros n acc out tr Hlen Hrun; simpl in Hrun.
  - inversion Hrun; subst. split; [intros m req [] | discriminate].
  - destruct (test args acc) eqn:Ht.
    + apply test_true in Ht as [Hcap _].
      assert (Hlt : Z.of_nat (length (probes acc)) < Spec.cap args) by lia.
      loop_step w n args acc.
      * inversion Hrun; subst. split.
        -- intros m req [H | []]. inversion H; subst. exact Hlt.
        -- intros err acc' H. inversion H; subst. exact Hlen.
      * destruct (asyncWhilst w args fuel (S n) (record_answer acc res))
          as [r t] eqn:Hrec.
        inversion Hrun; subst.
        pose proof (record_answer_length acc res) as Hgrow.
        apply IH in Hrec as [Hin Hout]; [| lia].
        split; [| exact Hout].
        intros m req [H | H]; [| now apply (Hin m req)].
        inversion H; subst. exact Hlt.
    + inversion Hrun; subst. split; [intros m req [] |].
      intros err acc' H. inversion H; subst. exact Hlen.
Qed.

Lemma asyncWhilst_stops w args fuel : forall n acc t1 m req t2,
  snd (asyncWhilst w args fuel n acc) = t1 ++ EvMultiPathProbe m req :: t2 ->
  Spec.ends_loop (multiPathProbe w m req) ->
  t2 = [].
Proof.
  induction fuel as [| fuel IH]; intros n acc t1 m req t2 Hrun Hend;
    simpl in Hrun.
  - now destruct t1.
  - destruct (test args acc) eqn:Ht.
    + loop_step w n args acc.
      * simpl in Hrun.
        destruct t1 as [| ev [| ev' t1]]; inversion Hrun; trivial.
      * destruct (asyncWhilst w args fuel (S n) (record_answer acc res))
          as [r t] eqn:Hrec.
        simpl in Hrun.
        destruct t1 as [| ev t1]; simpl in Hrun.
        -- injection Hrun as Hn Hreq Htail.
           rewrite <- Hn, <- Hreq, Hanswer in Hend. simpl in Hend.
           pose proof (asyncWhilst_recorded w args fuel (S n)
                         (record_answer acc res)
                         (record_answer_reason acc res Hend)) as Hnil.
           rewrite Hrec in Hnil. simpl in Hnil. congruence.
        -- injection Hrun as Hev Htail.
           apply (IH (S n) (record_answer acc res) t1 m req t2); trivial.
           now rewrite Hrec.
    + simpl in Hrun. now destruct t1.
Qed.

(** The loop calls the Multi-Path Prober only. *)
Lemma asyncWhilst_calls w args fuel : forall n acc ev,
  In ev (snd (asyncWhilst w args fuel n acc)) ->
  exists m req, ev = EvMultiPathProbe m req.
Proof.
  induction fuel as [| fuel IH]; intros n acc ev; simpl; [intros [] |].
  destruct (test args acc); [| intros []].
  loop_step w n args acc.
  - intros [H | []]. eauto.
  - destruct (asyncWhilst w args fuel (S n) (record_answer acc res))
      as [r t] eqn:Hrec.
    intros [H | H]; [eauto |]. apply (IH (S n) (record_answer acc res)).
    now rewrite Hrec.
Qed.

(** When the loop ends without a hard error, its test has failed. *)
Lemma asyncWhilst_end w args fuel : forall n acc acc' tr,
  asyncWhilst w args fuel n acc = (Ok (None, acc'), tr) ->
  test args acc' = false.
Proof.
  induction fuel as [| fuel IH]; intros n acc acc' tr Hrun; simpl in Hrun;
    [discriminate |].
  destruct (test args acc) eqn:Ht.
  - loop_step w n args acc; [discriminate |].
    destruct (asyncWhilst w args fuel (S n) (record_answer acc res))
      as [r t] eqn:Hrec.
    inversion Hrun; subst. eapply IH; eauto.
  - inversion Hrun; subst. exact Ht.
Qed.

(** A reason that the loop ends with is the one of the last answer of the
    prober. *)
Lemma asyncWhilst_reason w args fuel : forall n acc err acc' tr reason,
  error acc = None ->
  asyncWhilst w args fuel n acc = (Ok (err, acc'), tr) ->
  error acc' = Some reason ->
  exists t1 m req res,
    tr = t1 ++ [EvMultiPathProbe m req] /\
    multiPathProbe w m req = inr res /\
    MultiProbeResult.error res = Some reason.
Proof.
  induction fuel as [| fuel IH]; intros n acc err acc' tr reason Hnone Hrun Hr;
    simpl in Hrun; [discriminate |].
  destruct (test args acc) eqn:Ht.
  - loop_step w n args acc.
    + inversion Hrun; subst. congruence.
    + destruct (asyncWhilst w args fuel (S n) (record_answer acc res))
        as [r t] eqn:Hrec.
      inversion Hrun; subst. clear Hrun.
      destruct (MultiProbeResult.error res) as [e |] eqn:He.
      * assert (Herr : error (record_answer acc res) = Some e)
          by (unfold record_answer; simpl; now rewrite He).
        destruct fuel as [| fuel]; simpl in Hrec; [discriminate |].
        destruct (test args (record_answer acc res)) eqn:Ht'.
        { apply test_true in Ht' as [_ Ht']. congruence. }
        inversion Hrec; subst.
        exists [], n, (multiPathRequest args acc), res.
        repeat split; trivial. congruence.
      * assert (Herr : error (record_answer acc res) = None)
          by (unfold record_answer; simpl; now rewrite He).
        destruct (IH (S n) (record_answer acc res) err acc' t reason
                    Herr Hrec Hr) as (t1 & m & req & res' & -> & Hm & He').
        exists (EvMultiPathProbe n (multiPathRequest args acc) :: t1), m, req,
          res'.
        repeat split; trivial.
  - inversion Hrun; subst. congruence.
Qed.

(** With a productive prober the loop ends within [cap + 1] evaluations of
    its test. *)
Lemma asyncWhilst_terminates w args :
  Spec.productive w ->
  forall fuel n acc,
    Z.of_nat (length (probes acc)) <= Spec.cap args ->
    Spec.cap args - Z.of_nat (length (probes acc)) < Z.of_nat fuel ->
    exists err acc' tr,
      asyncWhilst w args fuel n acc = (Ok (err, acc'), tr).
Proof.
  intros Hprod. induction fuel as [| fuel IH]; intros n acc Hlen Hfuel;
    [lia |].
  simpl. destruct (test args acc) eqn:Ht; [| unfold ret; eauto].
  apply test_true in Ht as [Hcap Herr].
  loop_step w n args acc; [eauto |].
  destruct (Hprod _ _ _ Hanswer) as [Hp | He].
  - pose proof (record_answer_progress acc res Hp) as Hgrow.
    destruct (IH (S n) (record_answer acc res)) as (err & acc' & tr & Hrec);
      [lia | lia |].
    rewrite Hrec. eauto.
  - apply (record_answer_reason acc) in He.
    destruct fuel as [| fuel]; [lia |].
    simpl. destruct (test args (record_answer acc res)) eqn:Ht'.
    + apply test_true in Ht' as [_ Ht']. congruence.
    + unfold ret. eauto.
Qed.


(** *** The accumulator *)

Lemma limits_silent done : snd (limits done) = [].
Proof.
  destruct done as [[e |] acc]; simpl; trivial.
  destruct (probes acc); [destruct (error acc) |]; reflexivity.
Qed.

Lemma getMultiLimits_skipped fuel w args supported single :
  supported = false \/ truthy (out_through args) = true ->
  getMultiLimits fuel w args supported single = ret None.
Proof.
  unfold getMultiLimits. intros [-> | H]; simpl; trivial.
  rewrite H. now destruct supported.
Qed.

Lemma getMultiLimits_loops fuel w args single :
  truthy (out_through args) = false ->
  getMultiLimits fuel w args true single
  = (done <- asyncWhilst w args fuel 0 Spec.nothing_yet ;; limits done).
Proof. unfold getMultiLimits. simpl. now intros ->. Qed.

Lemma getMultiLimits_done fuel w args single done tr :
  truthy (out_through args) = false ->
  asyncWhilst w args fuel 0 Spec.nothing_yet = (Ok done, tr) ->
  getMultiLimits fuel w args true single = (fst (limits done), tr).
Proof.
  intros Hout Hrun. rewrite getMultiLimits_loops by trivial.
  erewrite bind_step by exact Hrun. now rewrite limits_silent, app_nil_r.
Qed.

(** The accumulator calls the Multi-Path Prober only. *)
Lemma getMultiLimits_calls fuel w args supported single ev :
  In ev (snd (getMultiLimits fuel w args supported single)) ->
  exists m req, ev = EvMultiPathProbe m req.
Proof.
  unfold getMultiLimits.
  destruct (negb supported); [intros [] |].
  destruct (truthy (out_through args)); [intros [] |].
  pose proof (asyncWhilst_calls w args fuel 0 {| probes := []; error := None |})
    as Hcalls.
  destruct (asyncWhilst w args fuel 0 {| probes := []; error := None |})
    as [[done | e |] t]; simpl in *; try exact (Hcalls ev).
  pose proof (limits_silent done) as Hs.
  destruct (limits done) as [r t']. simpl in *. subst.
  rewrite app_nil_r. exact (Hcalls ev).
Qed.

Lemma limits_reports acc :
  probes acc <> [] ->
  limits (None, acc)
  = ret (Some
      {| Limits.latency_ms := sumOf (map Probe.latency_ms (probes acc));
         Limits.probes := map summary (probes acc);
         Limits.routes_max := sumOf (map Probe.route_maximum (probes acc)) |}).
Proof. simpl. destruct (probes acc); [congruence | reflexivity]. Qed.

(** C5 (amended).  When [max_paths] is absent, zero or positive, the
    Multi-Path Prober is only called with fewer accumulated probes than the
    path-count cap, and when the loop ends the accumulated probes are at
    most as many as the cap; the cap is [max_paths] when that is not zero,
    and 7 when [max_paths] is absent or zero.  With a negative [max_paths]
    the count of probes never stops the loop.  Whatever [max_paths] is, a
    call of the prober that ends with a hard error, or with a recorded
    reason why no further path was found, is the last call of the loop. *)
Theorem C5_loop_bounded fuel w args :
  (0 <= Spec.cap args ->
   (forall n req,
      In (EvMultiPathProbe n req)
         (snd (asyncWhilst w args fuel 0 Spec.nothing_yet)) ->
      Z.of_nat (length (MultiProbeRequest.probes req)) < Spec.cap args) /\
   (forall err acc,
      fst (asyncWhilst w args fuel 0 Spec.nothing_yet) = Ok (err, acc) ->
      Z.of_nat (length (probes acc)) <= Spec.cap args)) /\
  (Spec.cap args < 0 ->
   forall acc, test args acc = negb (truthy (error acc))) /\
  (forall t1 n req t2,
     snd (asyncWhilst w args fuel 0 Spec.nothing_yet)
     = t1 ++ EvMultiPathProbe n req :: t2 ->
     Spec.ends_loop (multiPathProbe w n req) ->
     t2 = []) /\
  Spec.cap args
  = match max_paths args with
    | Some 0 => 7
    | Some n => n
    | None => 7
    end.
Proof.
  split; [| split; [| split]].
  - intros Hcap.
    destruct (asyncWhilst_bounded w args fuel 0 Spec.nothing_yet
                (fst (asyncWhilst w args fuel 0 Spec.nothing_yet))
                (snd (asyncWhilst w args fuel 0 Spec.nothing_yet)))
      as [Hcalls Hend].
    { simpl. lia. }
    { now destruct (asyncWhilst _ _ _ _ _). }
    split; [exact Hcalls | exact Hend].
  - intros Hneg acc. unfold test. fold (Spec.cap args).
    destruct (Z.eqb_spec (Spec.cap args) (Z.of_nat (length (probes acc))));
      [lia | reflexivity].
  - intros t1 n req t2. apply asyncWhilst_stops.
  - unfold Spec.cap, js_or, defaultMaxPaths.
    now destruct (max_paths args) as [[| n | n] |].
Qed.

(** A prober that always finds a path is asked 7 times by default, and
    twice with [max_paths] 2. *)
Lemma C5_loop_bounded_witness :
  (exists acc,
     asyncWhilst Scenario.many_small_paths Scenario.request 10 0
       Spec.nothing_yet
     = (Ok (None, acc),
        snd (asyncWhilst Scenario.many_small_paths Scenario.request 10 0
               Spec.nothing_yet)) /\
     length (probes acc) = 7%nat /\
     Z.of_nat (length (probes acc)) <= Spec.cap Scenario.request) /\
  (exists acc,
     asyncWhilst Scenario.many_small_paths Scenario.two_at_most 10 0
       Spec.nothing_yet
     = (Ok (None, acc),
        snd (asyncWhilst Scenario.many_small_paths Scenario.two_at_most 10 0
               Spec.nothing_yet)) /\
     length (probes acc) = 2%nat /\
     Z.of_nat (length (probes acc)) <= Spec.cap Scenario.two_at_most).
Proof.
  split.
  - eexists. split; [vm_compute; reflexivity |]. split; [reflexivity |].
    apply (proj2 (proj1 (C5_loop_bounded 10 Scenario.many_small_paths
                           Scenario.request) ltac:(vm_compute; discriminate))
             None).
    vm_compute. reflexivity.
  - eexists. split; [vm_compute; reflexivity |]. split; [reflexivity |].
    apply (proj2 (proj1 (C5_loop_bounded 10 Scenario.many_small_paths
                           Scenario.two_at_most)
                    ltac:(vm_compute; discriminate))
             None).
    vm_compute. reflexivity.
Defined.

(** C5 as stated fails.  With [max_paths] -1 and a prober that always
    finds a path, the tenth call of the prober already carries nine probes
    and the loop is still running; with [max_paths] 0 the loop ends with
    seven probes. *)
Lemma C5_counterexample :
  Spec.cap Cases.negative_paths = -1 /\
  fst (asyncWhilst Scenario.many_small_paths Cases.negative_paths 10 0
         Spec.nothing_yet) = Pending /\
  (exists req,
     In (EvMultiPathProbe 9 req)
        (snd (asyncWhilst Scenario.many_small_paths Cases.negative_paths 10 0
                Spec.nothing_yet)) /\
     length (MultiProbeRequest.probes req) = 9%nat /\
     ~ Z.of_nat (length (MultiProbeRequest.probes req)) <= -1) /\
  max_paths Cases.zero_paths = Some 0 /\
  (exists acc,
     fst (asyncWhilst Scenario.many_small_paths Cases.zero_paths 10 0
            Spec.nothing_yet) = Ok (None, acc) /\
     length (probes acc) = 7%nat /\
     ~ Z.of_nat (length (probes acc)) <= 0).
Proof.
  split; [reflexivity |]. split; [reflexivity |]. split; [| split].
  - eexists. split.
    + vm_compute. do 9 right. left. reflexivity.
    + split; [reflexivity | simpl; lia].
  - reflexivity.
  - eexists. split; [vm_compute; reflexivity |].
    split; [reflexivity | simpl; lia].
Qed.

(** C6 (amended).  When a hard error of the prober ends the loop, the
    accumulator fails with that error, however many probes it has
    collected.  When the loop ends without a hard error and without a
    probe, the accumulator fails with the recorded reason, which is the one
    of the last answer of the prober.
    When it ends without a hard error and with at least one probe, the
    accumulator succeeds: [latency_ms] is the sum of the probes' latencies,
    [routes_max] is the sum of their [route_maximum], and there is one
    summary per probe, in order, with the probe's [success] as channels, its
    [route_maximum] as liquidity and its [relays]. *)
Theorem C6_accumulator_outcome fuel w args single err acc tr :
  truthy (out_through args) = false ->
  asyncWhilst w args fuel 0 Spec.nothing_yet = (Ok (err, acc), tr) ->
  getMultiLimits fuel w args true single = (fst (limits (err, acc)), tr) /\
  (forall hard, err = Some hard -> limits (err, acc) = fail hard) /\
  (err = None -> probes acc = [] ->
   exists reason t1 n req res,
     limits (err, acc) = fail reason /\
     error acc = Some reason /\
     tr = t1 ++ [EvMultiPathProbe n req] /\
     multiPathProbe w n req = inr res /\
     MultiProbeResult.error res = Some reason) /\
  (err = None -> probes acc <> [] ->
   exists lim,
     limits (err, acc) = ret (Some lim) /\
     Limits.latency_ms lim = Spec.total (map Probe.latency_ms (probes acc)) /\
     Limits.routes_max lim
     = Spec.total (map Probe.route_maximum (probes acc)) /\
     length (Limits.probes lim) = length (probes acc) /\
     (forall i probe,
        nth_error (probes acc) i = Some probe ->
        nth_error (Limits.probes lim) i
        = Some {| Summary.channels := Probe.success probe;
                  Summary.liquidity := Probe.route_maximum probe;
                  Summary.relays := Probe.relays probe |})).
Proof.
  intros Hout Hrun. split; [now apply getMultiLimits_done |].
  split; [now intros hard -> |]. split.
  - intros -> Hnone. pose proof (asyncWhilst_end _ _ _ _ _ _ _ Hrun) as Hend.
    apply test_false in Hend as [Hcap | Herr].
    + pose proof (cap_nonzero args). rewrite Hnone in Hcap. simpl in Hcap.
      lia.
    + destruct (error acc) as [reason |] eqn:Hreason; [| congruence].
      destruct (asyncWhilst_reason w args fuel 0 Spec.nothing_yet None acc tr
                  reason eq_refl Hrun Hreason)
        as (t1 & n & req & res & Htr & Hn & Hres).
      exists reason, t1, n, req, res. repeat split; trivial.
      simpl. now rewrite Hnone, Hreason.
  - intros -> Hsome. eexists. split; [now apply limits_reports |].
    cbn [Limits.latency_ms Limits.routes_max Limits.probes].
    rewrite !sumOf_total, length_map.
    repeat split. intros i probe Hi.
    rewrite nth_error_map, Hi. reflexivity.
Qed.

Lemma C6_accumulator_outcome_witness :
  exists lim,
    getMultiLimits 10 Scenario.world Scenario.request true
      {| ProbeResult.route := Some Scenario.single |}
    = (Ok (Some lim),
       snd (asyncWhilst Scenario.world Scenario.request 10 0
              Spec.nothing_yet)) /\
    Limits.latency_ms lim = 240 /\
    Limits.routes_max lim = 150000 /\
    length (Limits.probes lim) = 2%nat.
Proof.
  destruct (C6_accumulator_outcome 10 Scenario.world Scenario.request
              {| ProbeResult.route := Some Scenario.single |}
              None
              {| probes := [Scenario.probe "700001x1x0" 90000;
                            Scenario.probe "700002x1x0" 60000];
                 error := Some (failure 503
                                  "RoutingFailureAttemptingMultiProbe" None) |}
              (snd (asyncWhilst Scenario.world Scenario.request 10 0
                      Spec.nothing_yet))
              eq_refl eq_refl) as (Hrun & _ & _ & Hsome).
  destruct (Hsome eq_refl) as (lim & Hlim & Hlat & Hmax & Hlen & _);
    [discriminate |].
  exists lim. rewrite Hrun, Hlim. repeat split; assumption.
Defined.

(** C6 as stated fails: the prober finds one path and then loses the
    connection; the loop ends with one probe, and the accumulator fails with
    the error of the prober instead of reporting that probe. *)
Lemma C6_counterexample :
  fst (asyncWhilst Scenario.outage Scenario.request 10 0 Spec.nothing_yet)
  = Ok (Some Scenario.unavailable,
        {| probes := [Scenario.probe "700001x1x0" 90000]; error := None |}) /\
  fst (getMultiLimits 10 Scenario.outage Scenario.request true
         {| ProbeResult.route := Some Scenario.single |})
  = Fail Scenario.unavailable /\
  ~ (exists lim,
       fst (getMultiLimits 10 Scenario.outage Scenario.request true
              {| ProbeResult.route := Some Scenario.single |})
       = Ok (Some lim)).
Proof.
  split; [reflexivity | split; [reflexivity |]].
  intros (lim & H). vm_compute in H. discriminate.
Qed.

(** *** Claims on the selection between the two branches *)

Lemma getMultiPaths_insufficient w args lim amount :
  tokens args = Some amount ->
  Limits.routes_max lim < amount ->
  getMultiPaths w args (Some lim) = ret None.
Proof.
  intros Ht Hlt. unfold getMultiPaths, js_lt. rewrite Ht.
  now apply Z.ltb_lt in Hlt as ->.
Qed.

(** C2 (amended).  When the multi-path branch ran and the Route Synthesizer
    produced an empty list of routes, that empty list is the chosen set of
    routes and the request fails with the class-503 error
    [FailedToFindAPathToFundSwapOffchain], whatever the single path is.  The
    single-path route and its fee are the result when the multi-path branch
    yields nothing at all and the fee of that route is within the budget. *)
Theorem C2_empty_multi_path fuel w args :
  (forall single,
     result args (Some []) single
     = fail (failure 503 "FailedToFindAPathToFundSwapOffchain" None)) /\
  (forall total single lim t1 t2,
     validate args = ret tt ->
     tokensAsMtokens (tokens args) = inr total ->
     executeProbe w (singlePathRequest args total) = inr single ->
     getMultiLimits fuel w args (Spec.wallet_answers w args) single
     = (Ok lim, t1) ->
     getMultiPaths w args lim = (Ok (Some []), t2) ->
     get_routes_for_funding fuel w args
     = (Fail (failure 503 "FailedToFindAPathToFundSwapOffchain" None),
        EvGetWalletVersion :: EvExecuteProbe (singlePathRequest args total)
          :: t1 ++ t2)) /\
  (forall single r,
     ProbeResult.route single = Some r ->
     ~ Spec.over_budget (Route.fee r) args ->
     result args None single
     = ret {| Result.fee := Route.fee r; Result.routes := [r] |}).
Proof.
  split; [| split].
  - intros single. apply result_fails. now left.
  - intros total single lim t1 t2 Hv Ht He Hl Hp.
    rewrite (run_selects fuel w args total single Hv Ht He).
    rewrite (select_steps fuel w args _ single lim t1 (Some []) t2 Hl Hp).
    cbn [fst snd]. rewrite result_fails by now left. reflexivity.
  - intros single r Hr Hb. apply result_single; trivial.
    now apply within_budget_gt.
Qed.

Lemma C2_empty_multi_path_witness :
  fst (get_routes_for_funding 10 Scenario.nothing_synthesized
         Scenario.request)
  = Fail (failure 503 "FailedToFindAPathToFundSwapOffchain" None) /\
  result Scenario.request None {| ProbeResult.route := Some Scenario.single |}
  = ret {| Result.fee := 500; Result.routes := [Scenario.single] |}.
Proof.
  split.
  - rewrite (proj1 (proj2 (C2_empty_multi_path 10 Scenario.nothing_synthesized
                             Scenario.request))
               "100000000"%string
               {| ProbeResult.route := Some Scenario.single |}
               _ _ _ eq_refl eq_refl eq_refl eq_refl eq_refl).
    reflexivity.
  - apply (proj2 (proj2 (C2_empty_multi_path 10 Scenario.nothing_synthesized
                           Scenario.request))
             {| ProbeResult.route := Some Scenario.single |} Scenario.single
             eq_refl).
    intros (budget & Hb & Hlt). inversion Hb; subst. simpl in Hlt. lia.
Defined.

(** C2 as stated fails: in scenario A with a Route Synthesizer that returns
    no route, the single path costs 500 with a budget of 1000, the
    multi-path branch ran and yields the empty list, and the request fails
    instead of returning the single path. *)
Lemma C2_counterexample :
  executeProbe Scenario.nothing_synthesized
    (singlePathRequest Scenario.request "100000000")
  = inr {| ProbeResult.route := Some Scenario.single |} /\
  Route.fee Scenario.single <= 1000 /\
  (exists lim t1 t2,
     getMultiLimits 10 Scenario.nothing_synthesized Scenario.request true
       {| ProbeResult.route := Some Scenario.single |} = (Ok lim, t1) /\
     getMultiPaths Scenario.nothing_synthesized Scenario.request lim
     = (Ok (Some []), t2)) /\
  fst (get_routes_for_funding 10 Scenario.nothing_synthesized
         Scenario.request)
  = Fail (failure 503 "FailedToFindAPathToFundSwapOffchain" None) /\
  fst (get_routes_for_funding 10 Scenario.nothing_synthesized
         Scenario.request)
  <> Ok {| Result.fee := 500; Result.routes := [Scenario.single] |}.
Proof.
  split; [reflexivity |]. split; [simpl; lia |]. split; [| split].
  - eexists. eexists. eexists. split; vm_compute; reflexivity.
  - reflexivity.
  - intros H. vm_compute in H. discriminate.
Qed.

(** C7.  When the accumulator succeeds with a [routes_max] below the
    requested amount, the multi-path branch yields nothing and calls
    neither the channel-state accessor nor the Route Synthesizer; the
    selection is made on the single path: a result that is returned is the
    single-path route with its fee, and it is returned when that fee is
    within the budget. *)
Theorem C7_insufficient_capacity fuel w args total single lim t1 amount :
  validate args = ret tt ->
  tokensAsMtokens (tokens args) = inr total ->
  executeProbe w (singlePathRequest args total) = inr single ->
  getMultiLimits fuel w args (Spec.wallet_answers w args) single
  = (Ok (Some lim), t1) ->
  tokens args = Some amount ->
  Limits.routes_max lim < amount ->
  getMultiPaths w args (Some lim) = ret None /\
  get_routes_for_funding fuel w args
  = (fst (result args None single),
     EvGetWalletVersion :: EvExecuteProbe (singlePathRequest args total)
       :: t1) /\
  (forall id,
     ~ In (EvGetChannel id) (snd (get_routes_for_funding fuel w args))) /\
  (forall req,
     ~ In (EvMultiPathPayment req)
         (snd (get_routes_for_funding fuel w args))) /\
  (forall r,
     ProbeResult.route single = Some r ->
     (forall res,
        fst (get_routes_for_funding fuel w args) = Ok res ->
        res = {| Result.fee := Route.fee r; Result.routes := [r] |}) /\
     (~ Spec.over_budget (Route.fee r) args ->
      fst (get_routes_for_funding fuel w args)
      = Ok {| Result.fee := Route.fee r; Result.routes := [r] |})).
Proof.
  intros Hv Ht He Hl Hamount Hlt.
  pose proof (getMultiPaths_insufficient w args lim amount Hamount Hlt) as Hp.
  assert (Hrun : get_routes_for_funding fuel w args
                 = (fst (result args None single),
                    EvGetWalletVersion
                      :: EvExecuteProbe (singlePathRequest args total) :: t1)).
  { rewrite (run_selects fuel w args total single Hv Ht He).
    rewrite (select_steps fuel w args _ single (Some lim) t1 None [] Hl Hp).
    simpl. now rewrite app_nil_r. }
  assert (Hcalls : forall ev,
            In ev t1 -> exists m req, ev = EvMultiPathProbe m req).
  { intros ev Hin.
    apply (getMultiLimits_calls fuel w args (Spec.wallet_answers w args)
             single).
    now rewrite Hl. }
  split; [exact Hp | split; [exact Hrun |]]. rewrite Hrun. simpl.
  split; [| split].
  - intros id [H | [H | H]]; try discriminate.
    apply Hcalls in H as (m & req & H). discriminate.
  - intros req [H | [H | H]]; try discriminate.
    apply Hcalls in H as (m & req' & H). discriminate.
  - intros r Hr. split.
    + intros res. now apply result_single_only.
    + intros Hb. rewrite (result_single args single r Hr); trivial.
      now apply within_budget_gt.
Qed.

Lemma C7_insufficient_capacity_witness :
  get_routes_for_funding 10 Scenario.many_small_paths Scenario.request
  = (Ok {| Result.fee := 500; Result.routes := [Scenario.single] |},
     EvGetWalletVersion
       :: EvExecuteProbe (singlePathRequest Scenario.request "100000000")
       :: snd (getMultiLimits 10 Scenario.many_small_paths Scenario.request
                 true {| ProbeResult.route := Some Scenario.single |})).
Proof.
  destruct (C7_insufficient_capacity 10 Scenario.many_small_paths
              Scenario.request "100000000"
              {| ProbeResult.route := Some Scenario.single |}
              {| Limits.latency_ms := 840;
                 Limits.probes :=
                   repeat (summary (Scenario.probe "700001x1x0" 1000)) 7;
                 Limits.routes_max := 7000 |}
              (snd (getMultiLimits 10 Scenario.many_small_paths
                      Scenario.request true
                      {| ProbeResult.route := Some Scenario.single |}))
              100000 eq_refl eq_refl eq_refl eq_refl eq_refl eq_refl)
    as (_ & Hrun & _).
  rewrite Hrun. reflexivity.
Defined.

(** C8.  When the wallet-version query fails, or [out_through] is set, the
    accumulator yields nothing without an error and without a call, and no
    collaborator is called after the Probe Executor.  When the single path
    has a route, a result that is returned is exactly that route with its
    fee, and it is returned when that fee is within the budget. *)
Theorem C8_accumulator_skipped fuel w args total single :
  validate args = ret tt ->
  tokensAsMtokens (tokens args) = inr total ->
  executeProbe w (singlePathRequest args total) = inr single ->
  Spec.wallet_answers w args = false \/ truthy (out_through args) = true ->
  getMultiLimits fuel w args (Spec.wallet_answers w args) single = ret None /\
  get_routes_for_funding fuel w args
  = (fst (result args None single),
     [EvGetWalletVersion; EvExecuteProbe (singlePathRequest args total)]) /\
  (forall r,
     ProbeResult.route single = Some r ->
     (forall res,
        fst (get_routes_for_funding fuel w args) = Ok res ->
        res = {| Result.fee := Route.fee r; Result.routes := [r] |}) /\
     (~ Spec.over_budget (Route.fee r) args ->
      fst (get_routes_for_funding fuel w args)
      = Ok {| Result.fee := Route.fee r; Result.routes := [r] |})).
Proof.
  intros Hv Ht He Hskip.
  pose proof (getMultiLimits_skipped fuel w args (Spec.wallet_answers w args)
                single Hskip) as Hl.
  assert (Hrun : get_routes_for_funding fuel w args
                 = (fst (result args None single),
                    [EvGetWalletVersion;
                     EvExecuteProbe (singlePathRequest args total)])).
  { rewrite (run_selects fuel w args total single Hv Ht He).
    now rewrite (select_steps fuel w args _ single None [] None [] Hl
                   eq_refl). }
  split; [exact Hl | split; [exact Hrun |]]. rewrite Hrun. simpl.
  intros r Hr. split.
  - intros res. now apply result_single_only.
  - intros Hb. rewrite (result_single args single r Hr); trivial.
    now apply within_budget_gt.
Qed.

Lemma C8_accumulator_skipped_witness :
  get_routes_for_funding 10 Scenario.old_wallet Scenario.request
  = (Ok {| Result.fee := 500; Result.routes := [Scenario.single] |},
     [EvGetWalletVersion;
      EvExecuteProbe (singlePathRequest Scenario.request "100000000")]) /\
  fst (get_routes_for_funding 10 Scenario.world Scenario.pinned)
  = Ok {| Result.fee := 500; Result.routes := [Scenario.single] |}.
Proof.
  split.
  - destruct (C8_accumulator_skipped 10 Scenario.old_wallet
                Scenario.request "100000000"
                {| ProbeResult.route := Some Scenario.single |}
                eq_refl eq_refl eq_refl (or_introl eq_refl))
      as (_ & Hrun & _).
    rewrite Hrun. reflexivity.
  - destruct (C8_accumulator_skipped 10 Scenario.world Scenario.pinned
                "100000000"
                {| ProbeResult.route := Some Scenario.single |}
                eq_refl eq_refl eq_refl (or_intror eq_refl))
      as (_ & _ & Hres).
    apply (proj2 (Hres Scenario.single eq_refl)).
    intros (budget & Hb & Hlt). inversion Hb; subst. simpl in Hlt. lia.
Defined.



(** *** The request settles

    With a productive prober, a path-count cap that is not negative and
    more evaluations of the loop test than that cap, the final callback is
    invoked: the claims above on what a request returns are about requests
    that do return. *)

Lemma accumulator_ends w args :
  Spec.productive w ->
  0 <= Spec.cap args ->
  exists err acc tr,
    asyncWhilst w args (S (Z.to_nat (Spec.cap args))) 0 Spec.nothing_yet
    = (Ok (err, acc), tr).
Proof.
  intros Hprod Hcap.
  apply (asyncWhilst_terminates w args Hprod); simpl; lia.
Qed.

Lemma getMultiLimits_settles fuel w args supported single :
  Spec.productive w ->
  0 <= Spec.cap args < Z.of_nat fuel ->
  fst (getMultiLimits fuel w args supported single) <> Pending.
Proof.
  intros Hprod Hfuel. unfold getMultiLimits.
  destruct (negb supported); [discriminate |].
  destruct (truthy (out_through args)); [discriminate |].
  destruct (asyncWhilst_terminates w args Hprod fuel 0
              {| probes := []; error := None |})
    as (err & acc & tr & Hrun); [simpl; lia | simpl; lia |].
  apply bind_settles.
  - rewrite Hrun. discriminate.
  - intros [[e |] done]; simpl; [discriminate |].
    destruct (probes done); [destruct (error done) |]; discriminate.
Qed.

Lemma getMultiPaths_settles w args lim :
  fst (getMultiPaths w args lim) <> Pending.
Proof.
  unfold getMultiPaths. apply asyncify_settles.
  destruct lim as [lim |]; [| discriminate].
  destruct (js_lt _ _); [discriminate |].
  apply bind_settles.
  - apply asyncMap_settles. intros id. apply asyncify_settles.
    apply call_settles.
  - intros channels. apply bind_settles; [apply call_settles |].
    intros info. destruct (tokensAsMtokens (tokens args)); [discriminate |].
    apply bind_settles; [apply call_settles | discriminate].
Qed.

Lemma result_settles args multi single :
  fst (result args multi single) <> Pending.
Proof. unfold result. destruct (_ || _); discriminate. Qed.

Lemma get_routes_for_funding_settles fuel w args :
  Spec.productive w ->
  0 <= Spec.cap args < Z.of_nat fuel ->
  fst (get_routes_for_funding fuel w args) <> Pending.
Proof.
  intros Hprod Hfuel. unfold get_routes_for_funding.
  apply bind_settles.
  { destruct (validate_cases args) as [-> | [reason ->]]; discriminate. }
  intros _. apply bind_settles.
  - apply both_settles; [discriminate |].
    unfold getSinglePath.
    destruct (tokensAsMtokens (tokens args)); [discriminate |].
    destruct (executeProbe w _); discriminate.
  - intros started. unfold select. apply bind_settles.
    + now apply getMultiLimits_settles.
    + intros lim. apply bind_settles; [apply getMultiPaths_settles |].
      intros multi. apply result_settles.
Qed.

End RoutesFacts.

(** ** Further properties of the routes *)
Module RoutesExtra.
Import GetRoutesForFunding RoutesFacts.

Local Open Scope Z_scope.

(** *** Which requests reach the network *)

(** X1.  A request makes no collaborator call exactly when validation
    rejects it; a validated request always starts the wallet-version query
    and then the single-path probe, whatever happens afterwards. *)
Theorem calls_unless_rejected fuel w args :
  (snd (get_routes_for_funding fuel w args) = [] <->
   exists reason, validate args = fail (failure 400 reason None)) /\
  (validate args = ret tt ->
   exists total rest,
     tokensAsMtokens (tokens args) = inr total /\
     snd (get_routes_for_funding fuel w args)
     = EvGetWalletVersion :: EvExecuteProbe (singlePathRequest args total)
         :: rest).
Proof.
  assert (Hstarts : validate args = ret tt ->
            exists total rest,
              tokensAsMtokens (tokens args) = inr total /\
              snd (get_routes_for_funding fuel w args)
              = EvGetWalletVersion
                  :: EvExecuteProbe (singlePathRequest args total) :: rest).
  { intros Hv. destruct (validated_mtokens args Hv) as [total Ht].
    exists total.
    destruct (executeProbe w (singlePathRequest args total))
      as [err | single] eqn:He.
    - exists []. split; trivial.
      now rewrite (run_probe_error fuel w args total err Hv Ht He).
    - eexists. split; trivial.
      rewrite (run_selects fuel w args total single Hv Ht He). reflexivity. }
  split; [| exact Hstarts]. split.
  - intros Hnil. destruct (validate_cases args) as [Hv | Hno]; trivial.
    destruct (Hstarts Hv) as (total & rest & _ & Htr). congruence.
  - intros [reason Hno]. now rewrite (run_rejected fuel w args _ Hno).
Qed.

Lemma calls_unless_rejected_witness :
  exists rest,
    snd (get_routes_for_funding 10 Scenario.probe_down Scenario.request)
    = EvGetWalletVersion
        :: EvExecuteProbe (singlePathRequest Scenario.request "100000000")
        :: rest.
Proof.
  destruct (proj2 (calls_unless_rejected 10 Scenario.probe_down
                     Scenario.request) eq_refl)
    as (total & rest & Ht & Htr).
  exists rest. injection Ht as <-. exact Htr.
Defined.

(** Validation reports the first missing field in the order
    [cltv_delta], [destination], [lnd], [logger], [tokens], each with its
    own reason, and the request fails with it without a call. *)
Theorem validation_reports_first_missing fuel w args :
  (truthy (cltv_delta args) = false ->
   get_routes_for_funding fuel w args
   = (Fail (failure 400 "ExpectedCltvDeltaToGetRoutesForFunding" None), []))
  /\
  (truthy (cltv_delta args) = true ->
   truthy (destination args) = false ->
   get_routes_for_funding fuel w args
   = (Fail (failure 400 "ExpectedDestinationToGetRoutesForFunding" None), []))
  /\
  (truthy (cltv_delta args) = true ->
   truthy (destination args) = true ->
   truthy (lnd args) = false ->
   get_routes_for_funding fuel w args
   = (Fail (failure 400 "ExpectedLndToGetRoutesForFunding" None), []))
  /\
  (truthy (cltv_delta args) = true ->
   truthy (destination args) = true ->
   truthy (lnd args) = true ->
   truthy (logger args) = false ->
   get_routes_for_funding fuel w args
   = (Fail (failure 400 "ExpectedLoggerToGetRoutesForFunding" None), []))
  /\
  (truthy (cltv_delta args) = true ->
   truthy (destination args) = true ->
   truthy (lnd args) = true ->
   truthy (logger args) = true ->
   truthy (tokens args) = false ->
   get_routes_for_funding fuel w args
   = (Fail (failure 400 "ExpectedTokensToGetRoutesForFunding" None), [])).
Proof.
  repeat split; intros; apply run_rejected; unfold validate;
    repeat match goal with H : truthy _ = _ |- _ => rewrite H; clear H end;
    reflexivity.
Qed.

Lemma validation_reports_first_missing_witness :
  get_routes_for_funding 10 Scenario.world Scenario.no_cltv_delta
  = (Fail (failure 400 "ExpectedCltvDeltaToGetRoutesForFunding" None), []).
Proof.
  apply (proj1 (validation_reports_first_missing 10 Scenario.world
                  Scenario.no_cltv_delta)).
  reflexivity.
Defined.


(** *** How the multi-path branch ends the request *)

Lemma test_nothing_yet args : test args Spec.nothing_yet = true.
Proof.
  unfold test. fold (Spec.cap args). pose proof (cap_nonzero args) as Hc.
  simpl. destruct (Z.eqb_spec (Spec.cap args) 0); [lia | reflexivity].
Qed.

Lemma select_limits_fail fuel w args supported single e t :
  getMultiLimits fuel w args supported single = (Fail e, t) ->
  select fuel w args supported single = (Fail e, t).
Proof. intros H. unfold select. now rewrite H. Qed.

(** X2.  When the first answer of the Multi-Path Prober is only a reason
    why no path was found, the whole request fails with that reason after
    this one call, whatever route the single path has found. *)
Theorem first_probe_reason_fails_request fuel w args total single reason :
  validate args = ret tt ->
  tokensAsMtokens (tokens args) = inr total ->
  executeProbe w (singlePathRequest args total) = inr single ->
  Spec.wallet_answers w args = true ->
  truthy (out_through args) = false ->
  multiPathProbe w 0 (multiPathRequest args Spec.nothing_yet)
  = inr {| MultiProbeResult.probe := None;
           MultiProbeResult.error := Some reason |} ->
  get_routes_for_funding (S (S fuel)) w args
  = (Fail reason,
     [EvGetWalletVersion; EvExecuteProbe (singlePathRequest args total);
      EvMultiPathProbe 0 (multiPathRequest args Spec.nothing_yet)]).
Proof.
  intros Hv Ht He Hw Hout Hanswer.
  rewrite (run_selects (S (S fuel)) w args total single Hv Ht He), Hw.
  assert (Hrun : asyncWhilst w args (S (S fuel)) 0 Spec.nothing_yet
                 = (Ok (None, {| probes := []; error := Some reason |}),
                    [EvMultiPathProbe 0
                       (multiPathRequest args Spec.nothing_yet)])).
  { cbn [asyncWhilst]. rewrite test_nothing_yet, Hanswer.
    cbn [asyncWhilst].
    assert (Hstop : test args (record_answer Spec.nothing_yet
                      {| MultiProbeResult.probe := None;
                         MultiProbeResult.error := Some reason |}) = false).
    { unfold test. simpl. now destruct (_ =? _). }
    now rewrite Hstop. }
  rewrite (select_limits_fail (S (S fuel)) w args true single reason
             [EvMultiPathProbe 0 (multiPathRequest args Spec.nothing_yet)]);
    [reflexivity |].
  now rewrite (getMultiLimits_done (S (S fuel)) w args single _ _ Hout Hrun).
Qed.

Lemma first_probe_reason_fails_request_witness :
  fst (get_routes_for_funding 2 Cases.no_path Scenario.request)
  = Fail (failure 503 "RoutingFailureAttemptingMultiProbe" None) /\
  result Scenario.request None {| ProbeResult.route := Some Scenario.single |}
  = ret {| Result.fee := 500; Result.routes := [Scenario.single] |}.
Proof.
  split; [| reflexivity].
  rewrite (first_probe_reason_fails_request 0 Cases.no_path Scenario.request
             "100000000" {| ProbeResult.route := Some Scenario.single |}
             (failure 503 "RoutingFailureAttemptingMultiProbe" None)
             eq_refl eq_refl eq_refl eq_refl eq_refl eq_refl).
  reflexivity.
Defined.

(** X3.  When a hard error of the Multi-Path Prober ends the loop, the
    whole request fails with that error right after the calls of the loop:
    neither the probes collected so far nor the single path are used. *)
Theorem prober_error_fails_request fuel w args total single hard acc tr :
  validate args = ret tt ->
  tokensAsMtokens (tokens args) = inr total ->
  executeProbe w (singlePathRequest args total) = inr single ->
  Spec.wallet_answers w args = true ->
  truthy (out_through args) = false ->
  asyncWhilst w args fuel 0 Spec.nothing_yet = (Ok (Some hard, acc), tr) ->
  get_routes_for_funding fuel w args
  = (Fail hard,
     EvGetWalletVersion :: EvExecuteProbe (singlePathRequest args total)
       :: tr).
Proof.
  intros Hv Ht He Hw Hout Hrun.
  rewrite (run_selects fuel w args total single Hv Ht He), Hw.
  rewrite (select_limits_fail fuel w args true single hard tr);
    [reflexivity |].
  now rewrite (getMultiLimits_done fuel w args single _ _ Hout Hrun).
Qed.

Lemma prober_error_fails_request_witness :
  fst (get_routes_for_funding 10 Scenario.outage Scenario.request)
  = Fail Scenario.unavailable.
Proof.
  rewrite (prober_error_fails_request 10 Scenario.outage Scenario.request
             "100000000" {| ProbeResult.route := Some Scenario.single |}
             Scenario.unavailable
             {| probes := [Scenario.probe "700001x1x0" 90000];
                error := None |}
             (snd (asyncWhilst Scenario.outage Scenario.request 10 0
                     Spec.nothing_yet))
             eq_refl eq_refl eq_refl eq_refl eq_refl eq_refl).
  reflexivity.
Defined.

(** X4.  When the multi-path branch hands over a list of routes, the
    outcome is decided by that list alone, as if the single path had found
    nothing: a non-empty list within the budget is returned with the sum of
    its fees, and a list above the budget fails the request even when the
    single path is affordable. *)
Theorem multi_path_list_decides fuel w args total single lim t1 rs t2 :
  validate args = ret tt ->
  tokensAsMtokens (tokens args) = inr total ->
  executeProbe w (singlePathRequest args total) = inr single ->
  getMultiLimits fuel w args (Spec.wallet_answers w args) single
  = (Ok lim, t1) ->
  getMultiPaths w args lim = (Ok (Some rs), t2) ->
  fst (get_routes_for_funding fuel w args)
  = fst (result args (Some rs) {| ProbeResult.route := None |}) /\
  (rs <> [] ->
   ~ Spec.over_budget (Spec.total (map Route.fee rs)) args ->
   fst (get_routes_for_funding fuel w args)
   = Ok {| Result.fee := Spec.total (map Route.fee rs);
           Result.routes := rs |}) /\
  (Spec.over_budget (Spec.total (map Route.fee rs)) args ->
   fst (get_routes_for_funding fuel w args)
   = Fail (failure 503 "FailedToFindAPathToFundSwapOffchain" None)).
Proof.
  intros Hv Ht He Hl Hp.
  assert (Hrun : fst (get_routes_for_funding fuel w args)
                 = fst (result args (Some rs) single)).
  { rewrite (run_selects fuel w args total single Hv Ht He). simpl.
    now rewrite (select_steps fuel w args _ single lim t1 (Some rs) t2 Hl Hp). }
  rewrite Hrun. split; [reflexivity | split].
  - intros Hne Hb. rewrite result_returns; simpl; trivial.
    + now rewrite sumOf_total.
    + rewrite sumOf_total. now apply within_budget_gt.
  - intros Hb. rewrite result_fails; trivial. right. simpl.
    rewrite sumOf_total. now apply over_budget_gt.
Qed.

Lemma multi_path_list_decides_witness :
  fst (get_routes_for_funding 10 Cases.costly_multi Scenario.request)
  = Fail (failure 503 "FailedToFindAPathToFundSwapOffchain" None) /\
  result Scenario.request None {| ProbeResult.route := Some Scenario.single |}
  = ret {| Result.fee := 500; Result.routes := [Scenario.single] |}.
Proof.
  split; [| reflexivity].
  destruct (multi_path_list_decides 10 Cases.costly_multi Scenario.request
              "100000000" {| ProbeResult.route := Some Scenario.single |}
              (Some {| Limits.latency_ms := 240;
                       Limits.probes :=
                         [summary (Scenario.probe "700001x1x0" 90000);
                          summary (Scenario.probe "700002x1x0" 60000)];
                       Limits.routes_max := 150000 |})
              (snd (getMultiLimits 10 Cases.costly_multi Scenario.request
                      true {| ProbeResult.route := Some Scenario.single |}))
              [Scenario.route "700001x1x0" 60000 900;
               Scenario.route "700002x1x0" 40000 400]
              (snd (getMultiPaths Cases.costly_multi Scenario.request
                  (Some {| Limits.latency_ms := 240;
                           Limits.probes :=
                             [summary (Scenario.probe "700001x1x0" 90000);
                              summary (Scenario.probe "700002x1x0" 60000)];
                           Limits.routes_max := 150000 |})))
              eq_refl eq_refl eq_refl) as (_ & _ & Hover).
  - vm_compute. reflexivity.
  - vm_compute. reflexivity.
  - apply Hover. exists 1000. split; [reflexivity | simpl; lia].
Defined.

(** X5.  Without [max_fee] the selection cannot fail for the cost: it
    fails exactly when no route was chosen, and otherwise returns the
    chosen routes with the sum of their fees. *)
Theorem no_budget_no_cost_failure args multi single :
  max_fee args = None ->
  (paths multi single = [] <->
   result args multi single
   = fail (failure 503 "FailedToFindAPathToFundSwapOffchain" None)) /\
  (paths multi single <> [] ->
   result args multi single
   = ret {| Result.fee := Spec.total (map Route.fee (paths multi single));
            Result.routes := paths multi single |}).
Proof.
  intros Hnone.
  assert (Hb : forall fees, js_gt fees (max_fee args) = false)
    by (intros fees; now rewrite Hnone).
  split; [split |].
  - intros H. apply result_fails. now left.
  - unfold result. rewrite Hb, orb_false_r.
    destruct (paths multi single); [trivial | discriminate].
  - intros Hne. rewrite <- sumOf_total. now apply result_returns.
Qed.

Lemma no_budget_no_cost_failure_witness :
  result Scenario.no_budget
    (Some [Scenario.route "700001x1x0" 60000 900000])
    {| ProbeResult.route := None |}
  = ret {| Result.fee := 900000;
           Result.routes := [Scenario.route "700001x1x0" 60000 900000] |}.
Proof.
  apply (proj2 (no_budget_no_cost_failure Scenario.no_budget
                  (Some [Scenario.route "700001x1x0" 60000 900000])
                  {| ProbeResult.route := None |} eq_refl)).
  discriminate.
Defined.


(** *** What the accumulator collects *)

Lemma collected_cons w ev calls :
  Derived.collected w (ev :: calls)
  = match Derived.answered_probe w ev with
    | Some p => p :: Derived.collected w calls
    | None => Derived.collected w calls
    end.
Proof.
  unfold Derived.collected. simpl.
  now destruct (Derived.answered_probe w ev).
Qed.


Lemma record_answer_probes acc res :
  probes (record_answer acc res)
  = probes acc ++ compact [MultiProbeResult.probe res].
Proof.
  unfold record_answer. simpl.
  destruct (MultiProbeResult.probe res); simpl; trivial.
  now rewrite app_nil_r.
Qed.

Lemma asyncWhilst_collects w args fuel : forall n acc,
  (forall t1 m req t2,
     snd (asyncWhilst w args fuel n acc) = t1 ++ EvMultiPathProbe m req :: t2 ->
     MultiProbeRequest.probes req = probes acc ++ Derived.collected w t1) /\
  (forall err acc',
     fst (asyncWhilst w args fuel n acc) = Ok (err, acc') ->
     probes acc'
     = probes acc
         ++ Derived.collected w (snd (asyncWhilst w args fuel n acc))).
Proof.
  induction fuel as [| fuel IH]; intros n acc; simpl.
  - split; [intros [| ev t1] m req t2 H; discriminate | discriminate].
  - destruct (test args acc) eqn:Ht.
    + loop_step w n args acc.
      * simpl. split.
        -- intros [| ev [| ev' t1]] m req t2 H; inversion H; subst.
           simpl. now rewrite app_nil_r.
        -- intros err acc' H. inversion H; subst.
           rewrite collected_cons. simpl. rewrite Hanswer. simpl.
           now rewrite app_nil_r.
      * destruct (IH (S n) (record_answer acc res)) as [Hreq Hend].
        destruct (asyncWhilst w args fuel (S n) (record_answer acc res))
          as [r t] eqn:Hrec.
        simpl. cbn [fst snd] in Hreq, Hend.
        rewrite record_answer_probes in Hreq, Hend.
        assert (Hev : Derived.answered_probe w
                        (EvMultiPathProbe n (multiPathRequest args acc))
                      = MultiProbeResult.probe res)
          by (simpl; now rewrite Hanswer).
        split.
        -- intros [| ev t1] m req t2 H.
           ++ injection H as _ <- _. simpl. now rewrite app_nil_r.
           ++ injection H as <- H2.
              rewrite (Hreq t1 m req t2 H2), collected_cons, Hev.
              rewrite <- app_assoc.
              now destruct (MultiProbeResult.probe res).
        -- intros err acc' H. rewrite (Hend err acc' H), collected_cons, Hev.
           rewrite <- app_assoc. now destruct (MultiProbeResult.probe res).
    + simpl. split.
      * intros [| ev t1] m req t2 H; discriminate.
      * intros err acc' H. inversion H; subst. now rewrite app_nil_r.
Qed.




(** X7.  The accumulator never drops or reorders a probe: every call of
    the Multi-Path Prober carries exactly the probes answered to the calls
    before it, in the order of the calls, and the loop ends with the probes
    answered to all its calls. *)
Theorem probes_are_the_answers fuel w args :
  (forall t1 n req t2,
     snd (asyncWhilst w args fuel 0 Spec.nothing_yet)
     = t1 ++ EvMultiPathProbe n req :: t2 ->
     MultiProbeRequest.probes req = Derived.collected w t1) /\
  (forall err acc,
     fst (asyncWhilst w args fuel 0 Spec.nothing_yet) = Ok (err, acc) ->
     probes acc
     = Derived.collected w (snd (asyncWhilst w args fuel 0 Spec.nothing_yet))).
Proof.
  destruct (asyncWhilst_collects w args fuel 0 Spec.nothing_yet)
    as [Hreq Hend].
  split.
  - intros t1 n req t2 H. exact (Hreq t1 n req t2 H).
  - intros err acc H. exact (Hend err acc H).
Qed.

Lemma probes_are_the_answers_witness :
  probes {| probes := [Scenario.probe "700001x1x0" 90000;
                       Scenario.probe "700002x1x0" 60000];
            error := Some (failure 503 "RoutingFailureAttemptingMultiProbe"
                             None) |}
  = Derived.collected Scenario.world
      (snd (asyncWhilst Scenario.world Scenario.request 10 0
              Spec.nothing_yet)).
Proof.
  apply (proj2 (probes_are_the_answers 10 Scenario.world Scenario.request)
           None).
  reflexivity.
Defined.


(** *** How long the accumulator asks *)






Lemma silent_loop w args :
  (forall n req, multiPathProbe w n req = inr Derived.silent) ->
  forall fuel n,
    asyncWhilst w args fuel n Spec.nothing_yet
    = (Pending,
       map (fun k => EvMultiPathProbe k
                       (multiPathRequest args Spec.nothing_yet))
         (seq n fuel)).
Proof.
  intros Hsilent. induction fuel as [| fuel IH]; intros n; [reflexivity |].
  cbn [asyncWhilst]. rewrite test_nothing_yet, Hsilent.
  change (record_answer Spec.nothing_yet Derived.silent)
    with Spec.nothing_yet.
  now rewrite IH.
Qed.

(** X9.  A prober that keeps answering without a probe and without a
    reason is asked again and again with no probe accumulated, and the
    request never settles: however long it runs, the final callback has not
    been invoked. *)
Theorem silent_prober_never_settles fuel w args total single :
  (forall n req, multiPathProbe w n req = inr Derived.silent) ->
  validate args = ret tt ->
  tokensAsMtokens (tokens args) = inr total ->
  executeProbe w (singlePathRequest args total) = inr single ->
  Spec.wallet_answers w args = true ->
  truthy (out_through args) = false ->
  get_routes_for_funding fuel w args
  = (Pending,
     EvGetWalletVersion :: EvExecuteProbe (singlePathRequest args total)
       :: map (fun k => EvMultiPathProbe k
                          (multiPathRequest args Spec.nothing_yet))
            (seq 0 fuel)).
Proof.
  intros Hsilent Hv Ht He Hw Hout.
  rewrite (run_selects fuel w args total single Hv Ht He), Hw.
  unfold select. rewrite getMultiLimits_loops by trivial.
  rewrite (silent_loop w args Hsilent fuel 0). reflexivity.
Qed.

Lemma silent_prober_never_settles_witness :
  fst (get_routes_for_funding 40 Cases.mute Scenario.request) = Pending /\
  length (snd (get_routes_for_funding 40 Cases.mute Scenario.request))
  = 42%nat.
Proof.
  rewrite (silent_prober_never_settles 40 Cases.mute Scenario.request
             "100000000" {| ProbeResult.route := Some Scenario.single |}
             (fun n req => eq_refl) eq_refl eq_refl eq_refl eq_refl eq_refl).
  split; reflexivity.
Defined.

(** X10.  An answer that carries a probe together with a reason is the
    last one: the probe is kept, the reason is not an error, and when it is
    the first answer the accumulator reports that single probe. *)
Theorem probe_with_reason_is_kept fuel w args single p reason :
  truthy (out_through args) = false ->
  multiPathProbe w 0 (multiPathRequest args Spec.nothing_yet)
  = inr {| MultiProbeResult.probe := Some p;
           MultiProbeResult.error := Some reason |} ->
  getMultiLimits (S (S fuel)) w args true single
  = (Ok (Some {| Limits.latency_ms := Probe.latency_ms p;
                 Limits.probes := [summary p];
                 Limits.routes_max := Probe.route_maximum p |}),
     [EvMultiPathProbe 0 (multiPathRequest args Spec.nothing_yet)]).
Proof.
  intros Hout Hanswer.
  assert (Hrun : asyncWhilst w args (S (S fuel)) 0 Spec.nothing_yet
                 = (Ok (None, {| probes := [p]; error := Some reason |}),
                    [EvMultiPathProbe 0
                       (multiPathRequest args Spec.nothing_yet)])).
  { cbn [asyncWhilst]. rewrite test_nothing_yet, Hanswer.
    cbn [asyncWhilst].
    assert (Hstop : test args (record_answer Spec.nothing_yet
                      {| MultiProbeResult.probe := Some p;
                         MultiProbeResult.error := Some reason |}) = false).
    { unfold test. simpl. now destruct (_ =? _). }
    now rewrite Hstop. }
  rewrite (getMultiLimits_done (S (S fuel)) w args single _ _ Hout Hrun).
  simpl. unfold sumOf. simpl. reflexivity.
Qed.

Lemma probe_with_reason_is_kept_witness :
  fst (get_routes_for_funding 2 Cases.last_path Scenario.request)
  = Ok {| Result.fee := 300;
          Result.routes := [Scenario.route "700001x1x0" 60000 200;
                            Scenario.route "700002x1x0" 40000 100] |} /\
  getMultiLimits 2 Cases.last_path Scenario.request true
    {| ProbeResult.route := Some Scenario.single |}
  = (Ok (Some {| Limits.latency_ms := 120;
                 Limits.probes :=
                   [summary (Scenario.probe "700001x1x0" 120000)];
                 Limits.routes_max := 120000 |}),
     [EvMultiPathProbe 0
        (multiPathRequest Scenario.request Spec.nothing_yet)]).
Proof.
  split; [reflexivity |].
  exact (probe_with_reason_is_kept 0 Cases.last_path Scenario.request
           {| ProbeResult.route := Some Scenario.single |}
           (Scenario.probe "700001x1x0" 120000)
           (failure 503 "RoutingFailureAttemptingMultiProbe" None)
           eq_refl eq_refl).
Defined.


(** *** The channels of the probes *)

Lemma seen_In x seen : existsb (String.eqb x) seen = true <-> In x seen.
Proof.
  rewrite existsb_exists. split.
  - intros (y & Hy & Heq). apply String.eqb_eq in Heq. now subst.
  - intros H. exists x. split; trivial. apply String.eqb_refl.
Qed.

Lemma uniq_from_In seen arr x :
  In x (uniq_from seen arr) <-> In x arr /\ ~ In x seen.
Proof.
  revert seen. induction arr as [| y rest IH]; intros seen; simpl.
  - tauto.
  - destruct (existsb (String.eqb y) seen) eqn:Hy.
    + apply seen_In in Hy. rewrite IH. split.
      * tauto.
      * intros [[-> | H] Hn]; tauto.
    + assert (Hn : ~ In y seen)
        by (intros H; apply seen_In in H; congruence).
      simpl. rewrite IH. simpl. split.
      * intros [-> | [H1 H2]]; tauto.
      * intros [[-> | H] Hx]; [tauto |].
        destruct (String.eqb_spec y x) as [-> | Hne]; tauto.
Qed.

Lemma uniq_from_NoDup seen arr : NoDup (uniq_from seen arr).
Proof.
  revert seen. induction arr as [| y rest IH]; intros seen; simpl.
  - constructor.
  - destruct (existsb (String.eqb y) seen); [apply IH |].
    constructor; [| apply IH].
    rewrite uniq_from_In. simpl. tauto.
Qed.

Lemma uniq_from_same seen seen' arr :
  (forall x, In x seen <-> In x seen') ->
  uniq_from seen arr = uniq_from seen' arr.
Proof.
  revert seen seen'. induction arr as [| y rest IH]; intros seen seen' Hs;
    simpl; trivial.
  assert (Heq : existsb (String.eqb y) seen = existsb (String.eqb y) seen').
  { destruct (existsb (String.eqb y) seen) eqn:H1,
             (existsb (String.eqb y) seen') eqn:H2; trivial.
    - apply seen_In, Hs, seen_In in H1. congruence.
    - apply seen_In, Hs, seen_In in H2. congruence. }
  rewrite Heq. destruct (existsb (String.eqb y) seen').
  - now apply IH.
  - f_equal. apply IH. intros x. simpl. now rewrite Hs.
Qed.

Lemma filter_absent (x : string) l :
  ~ In x l -> filter (fun y => negb (String.eqb y x)) l = l.
Proof.
  induction l as [| y l IH]; simpl; trivial.
  intros H. destruct (String.eqb_spec y x) as [-> | Hne]; simpl.
  - tauto.
  - f_equal. apply IH. tauto.
Qed.

Lemma uniq_from_seen x seen arr :
  uniq_from (x :: seen) arr
  = filter (fun y => negb (String.eqb y x)) (uniq_from seen arr).
Proof.
  revert seen. induction arr as [| y rest IH]; intros seen; simpl; trivial.
  destruct (String.eqb_spec y x) as [-> | Hne]; simpl.
  - destruct (existsb (String.eqb x) seen); [apply IH |].
    simpl. rewrite String.eqb_refl. simpl.
    symmetry. apply filter_absent. rewrite uniq_from_In. simpl. tauto.
  - destruct (existsb (String.eqb y) seen); [apply IH |].
    simpl. destruct (String.eqb_spec y x) as [| _]; [congruence |]. simpl.
    f_equal. rewrite <- IH. apply uniq_from_same.
    intros z. simpl. tauto.
Qed.

Lemma uniq_from_id seen l :
  NoDup l -> (forall x, In x l -> ~ In x seen) -> uniq_from seen l = l.
Proof.
  revert seen. induction l as [| y l IH]; intros seen Hnd Hs; simpl; trivial.
  inversion Hnd; subst.
  destruct (existsb (String.eqb y) seen) eqn:Hy.
  - apply seen_In in Hy. exfalso. apply (Hs y); simpl; tauto.
  - f_equal. apply IH; trivial.
    intros x Hx [<- | Hin]; [tauto |]. apply (Hs x); simpl; tauto.
Qed.

(** X11.  [uniq] keeps exactly the first occurrence of every element: its
    result has no duplicate and the same elements, a list without
    duplicates is left as it is, and an element in front stays in front
    while its later occurrences are dropped. *)
Theorem uniq_keeps_the_first_occurrences arr :
  NoDup (uniq arr) /\
  (forall x, In x (uniq arr) <-> In x arr) /\
  uniq (uniq arr) = uniq arr /\
  (NoDup arr -> uniq arr = arr) /\
  (forall x,
     uniq (x :: arr)
     = x :: filter (fun y => negb (String.eqb y x)) (uniq arr)).
Proof.
  assert (Hid : forall l, NoDup l -> uniq l = l).
  { intros l Hnd. unfold uniq. apply uniq_from_id; trivial.
    intros x _ []. }
  split; [apply uniq_from_NoDup |].
  split; [intros x; unfold uniq; rewrite uniq_from_In; simpl; tauto |].
  split; [apply Hid, uniq_from_NoDup |].
  split; [apply Hid |].
  intros x. unfold uniq. simpl. now rewrite uniq_from_seen.
Qed.


Lemma uniq_keeps_the_first_occurrences_witness :
  uniq ["700001x1x0"; "700009x1x0"]%string
  = ["700001x1x0"; "700009x1x0"]%string.
Proof.
  apply (proj1 (proj2 (proj2 (proj2
           (uniq_keeps_the_first_occurrences
              ["700001x1x0"; "700009x1x0"]%string))))).
  apply NoDup_cons.
  - intros [H | []]. discriminate.
  - apply NoDup_cons; [intros [] | apply NoDup_nil].
Defined.

(** *** Calls made for every element of a collection *)

Lemma asyncMap_calls_trace {A B : Type} (ev : A -> Event)
    (f : A -> Failure + B) coll :
  snd (asyncMap coll (fun x => call (ev x) (f x))) = map ev coll.
Proof.
  induction coll as [| x rest IH]; simpl; trivial.
  destruct (asyncMap rest (fun x => call (ev x) (f x))) as [r t].
  simpl in IH. subst t.
  destruct (f x) as [e | y]; simpl; destruct r as [ys | e' |]; reflexivity.
Qed.

Lemma asyncMap_calls_ok {A B : Type} (ev : A -> Event)
    (f : A -> Failure + B) coll ys :
  fst (asyncMap coll (fun x => call (ev x) (f x))) = Ok ys <->
  Forall2 (fun x y => f x = inr y) coll ys.
Proof.
  revert ys. induction coll as [| x rest IH]; intros ys; simpl.
  - split.
    + intros H. inversion H. constructor.
    + intros H. now inversion H.
  - destruct (asyncMap rest (fun x => call (ev x) (f x))) as [r t].
    simpl in IH. destruct (f x) as [e | y] eqn:Hx; simpl.
    + split; [discriminate |]. intros H. inversion H; subst. congruence.
    + destruct r as [zs | e' |]; simpl.
      * split.
        -- intros H. inversion H; subst. constructor; trivial. now apply IH.
        -- intros H. inversion H; subst.
           assert (y0 = y) by congruence. subst.
           apply IH in H4. now inversion H4.
      * split; [discriminate |]. intros H. inversion H; subst.
        apply IH in H4. discriminate.
      * split; [discriminate |]. intros H. inversion H; subst.
        apply IH in H4. discriminate.
Qed.

Lemma asyncMap_calls_fail {A B : Type} (ev : A -> Event)
    (f : A -> Failure + B) coll :
  (forall e,
     fst (asyncMap coll (fun x => call (ev x) (f x))) = Fail e ->
     exists x, In x coll /\ f x = inl e) /\
  (forall x e,
     In x coll -> f x = inl e ->
     exists e', fst (asyncMap coll (fun x => call (ev x) (f x))) = Fail e').
Proof.
  induction coll as [| x rest [IHe IHx]]; simpl.
  - split; [discriminate | intros x e []].
  - destruct (asyncMap rest (fun x => call (ev x) (f x))) as [r t].
    simpl in IHe, IHx. split.
    + intros e. destruct (f x) as [e0 | y] eqn:Hx; simpl.
      * intros H. inversion H; subst. eauto.
      * destruct r as [zs | e' |]; simpl; try discriminate.
        intros H. inversion H; subst.
        destruct (IHe e eq_refl) as (x' & Hin & Hx'). eauto.
    + intros x' e [<- | Hin] Hx'.
      * rewrite Hx'. simpl. eauto.
      * destruct (IHx x' e Hin Hx') as [e' He']. subst r.
        destruct (f x); simpl; eauto.
Qed.

Lemma fetch_channels w args ids :
  asyncMap ids
    (fun id => asyncify (call (EvGetChannel id) (getChannel w id (lnd args))))
  = asyncMap ids
      (fun id => call (EvGetChannel id)
                   (rejected (getChannel w id (lnd args)))).
Proof. apply asyncMap_ext. intros id. apply asyncify_call. Qed.

Lemma fetched_channels w args ids channels :
  Forall2 (fun id c => rejected (getChannel w id (lnd args)) = inr c)
    ids channels <->
  Forall2 (fun id c => getChannel w id (lnd args) = inr c) ids channels.
Proof.
  split; intros H; induction H; constructor; trivial;
    now apply rejected_ok.
Qed.

Lemma getMultiPaths_starts w args lim :
  js_lt (Limits.routes_max lim) (tokens args) = false ->
  exists rest,
    snd (getMultiPaths w args (Some lim))
    = map EvGetChannel (uniq (Derived.channel_ids lim)) ++ rest /\
    (rest = [] \/
     exists channels,
       Forall2 (fun id c => getChannel w id (lnd args) = inr c)
         (uniq (Derived.channel_ids lim)) channels /\
       (forall id, ~ In (EvGetChannel id) rest)).
Proof.
  intros Hlt. unfold getMultiPaths. rewrite asyncify_calls, Hlt.
  fold (Derived.channel_ids lim). rewrite (fetch_channels w args).
  pose proof (asyncMap_calls_trace EvGetChannel
                (fun id => rejected (getChannel w id (lnd args)))
                (uniq (Derived.channel_ids lim))) as Htr.
  pose proof (asyncMap_calls_ok EvGetChannel
                (fun id => rejected (getChannel w id (lnd args)))
                (uniq (Derived.channel_ids lim))) as Hok.
  destruct (asyncMap (uniq (Derived.channel_ids lim))
              (fun id => call (EvGetChannel id)
                           (rejected (getChannel w id (lnd args)))))
    as [[channels | e |] t]; simpl in Htr, Hok; subst t.
  - cbn [bind].
    match goal with
    | |- context [let (r, t') := ?k in _] => destruct k as [r t'] eqn:Hk
    end.
    exists t'. split; trivial. right. exists channels.
    split; [apply fetched_channels; now apply Hok |].
    intros id Hin. revert Hk.
    destruct (getWalletInfo w (lnd args)) as [e | info]; simpl.
    + intros H. inversion H; subst. destruct Hin as [H' | []]. discriminate.
    + destruct (tokensAsMtokens (tokens args)) as [e | mtok]; simpl.
      * intros H. inversion H; subst. destruct Hin as [H' | []].
        discriminate.
      * match goal with
        | |- context [multiPathPayment w ?req] =>
            destruct (multiPathPayment w req)
        end; simpl; intros H; inversion H; subst;
          destruct Hin as [H' | [H' | []]]; discriminate.
  - exists []. split; [now rewrite app_nil_r | now left].
  - exists []. split; [now rewrite app_nil_r | now left].
Qed.

(** X12.  When the limits cover the amount, the channel-state accessor is
    called first, once for every distinct channel of the probes in the
    order of their first occurrence; all these calls are started whatever
    they answer, and no channel is asked for afterwards. *)
Theorem every_channel_is_fetched_once w args lim :
  js_lt (Limits.routes_max lim) (tokens args) = false ->
  NoDup (uniq (Derived.channel_ids lim)) /\
  (forall id,
     In id (uniq (Derived.channel_ids lim)) <->
     exists probe,
       In probe (Limits.probes lim) /\ In id (Summary.channels probe)) /\
  exists rest,
    snd (getMultiPaths w args (Some lim))
    = map EvGetChannel (uniq (Derived.channel_ids lim)) ++ rest /\
    (forall id, ~ In (EvGetChannel id) rest).
Proof.
  intros Hlt. split; [apply uniq_from_NoDup | split].
  - intros id. unfold uniq. rewrite uniq_from_In.
    unfold Derived.channel_ids, flatten. rewrite in_concat. split.
    + intros [(l & Hl & Hid) _]. apply in_map_iff in Hl as (probe & <- & Hp).
      now exists probe.
    + intros (probe & Hp & Hid). split; [| intros []].
      exists (Summary.channels probe). split; trivial. now apply in_map.
  - destruct (getMultiPaths_starts w args lim Hlt)
      as (rest & Htr & [-> | (channels & _ & Hrest)]).
    + exists []. split; trivial. intros id [].
    + now exists rest.
Qed.

Lemma every_channel_is_fetched_once_witness :
  exists rest,
    snd (getMultiPaths Cases.unknown_channel Scenario.request
           (Some {| Limits.latency_ms := 200;
                    Limits.probes :=
                      [{| Summary.channels := ["700001x1x0"; "700009x1x0"];
                          Summary.liquidity := 90000;
                          Summary.relays := ["03bb"] |};
                       {| Summary.channels := ["700002x1x0"; "700009x1x0"];
                          Summary.liquidity := 60000;
                          Summary.relays := ["03cc"] |}]%string;
                    Limits.routes_max := 150000 |}))
    = [EvGetChannel "700001x1x0"; EvGetChannel "700009x1x0";
       EvGetChannel "700002x1x0"] ++ rest.
Proof.
  destruct (every_channel_is_fetched_once Cases.unknown_channel
              Scenario.request
              {| Limits.latency_ms := 200;
                 Limits.probes :=
                   [{| Summary.channels := ["700001x1x0"; "700009x1x0"];
                       Summary.liquidity := 90000;
                       Summary.relays := ["03bb"] |};
                    {| Summary.channels := ["700002x1x0"; "700009x1x0"];
                       Summary.liquidity := 60000;
                       Summary.relays := ["03cc"] |}]%string;
                 Limits.routes_max := 150000 |} eq_refl)
    as (_ & _ & rest & Htr & _).
  exists rest. exact Htr.
Defined.

(** X13.  When the channel-state accessor fails for a channel of the
    probes, the translation into routes is rejected with the error of one
    such channel as the wrapper of an [async] function hands it on: an
    [Error] whose message is the error array written as a string, such as
    [404,FullChannelDetailsNotFound]; every channel has been asked for,
    and neither the block height is queried nor the Route Synthesizer
    called. *)
Theorem channel_error_stops_the_translation w args lim id e :
  js_lt (Limits.routes_max lim) (tokens args) = false ->
  In id (Derived.channel_ids lim) ->
  getChannel w id (lnd args) = inl e ->
  exists id' e',
    In id' (Derived.channel_ids lim) /\
    getChannel w id' (lnd args) = inl e' /\
    getMultiPaths w args (Some lim)
    = (Fail (rejection e'),
       map EvGetChannel (uniq (Derived.channel_ids lim))).
Proof.
  intros Hlt Hin Hid.
  assert (Hu : In id (uniq (Derived.channel_ids lim)))
    by (unfold uniq; rewrite uniq_from_In; simpl; tauto).
  destruct (asyncMap_calls_fail EvGetChannel
              (fun id => rejected (getChannel w id (lnd args)))
              (uniq (Derived.channel_ids lim))) as [Hfail Hsome].
  assert (Hrej : rejected (getChannel w id (lnd args)) = inl (rejection e))
    by now rewrite Hid.
  destruct (Hsome id (rejection e) Hu Hrej) as [e2 He2].
  destruct (Hfail e2 He2) as (id' & Hin' & Hid').
  destruct (getChannel w id' (lnd args)) as [e' | c] eqn:Hc;
    [| discriminate].
  injection Hid' as <-.
  exists id', e'. split; [| split; trivial].
  - unfold uniq in Hin'. rewrite uniq_from_In in Hin'. tauto.
  - pose proof (asyncMap_calls_trace EvGetChannel
                  (fun id => rejected (getChannel w id (lnd args)))
                  (uniq (Derived.channel_ids lim))) as Htr.
    rewrite <- (rejection_twice e'). unfold getMultiPaths.
    apply asyncify_fail.
    rewrite Hlt. fold (Derived.channel_ids lim).
    rewrite (fetch_channels w args).
    destruct (asyncMap (uniq (Derived.channel_ids lim))
                (fun id => call (EvGetChannel id)
                             (rejected (getChannel w id (lnd args)))))
      as [r t]. simpl in He2, Htr. now subst.
Qed.

Lemma channel_error_stops_the_translation_witness :
  getMultiPaths Cases.unknown_channel Scenario.request
    (Some {| Limits.latency_ms := 200;
             Limits.probes :=
               [{| Summary.channels := ["700001x1x0"; "700009x1x0"];
                   Summary.liquidity := 90000;
                   Summary.relays := ["03bb"] |};
                {| Summary.channels := ["700002x1x0"; "700009x1x0"];
                   Summary.liquidity := 60000;
                   Summary.relays := ["03cc"] |}]%string;
             Limits.routes_max := 150000 |})
  = (Fail (thrown "404,FullChannelDetailsNotFound"),
     [EvGetChannel "700001x1x0"; EvGetChannel "700009x1x0";
      EvGetChannel "700002x1x0"]).
Proof.
  destruct (channel_error_stops_the_translation Cases.unknown_channel
              Scenario.request
              {| Limits.latency_ms := 200;
                 Limits.probes :=
                   [{| Summary.channels := ["700001x1x0"; "700009x1x0"];
                       Summary.liquidity := 90000;
                       Summary.relays := ["03bb"] |};
                    {| Summary.channels := ["700002x1x0"; "700009x1x0"];
                       Summary.liquidity := 60000;
                       Summary.relays := ["03cc"] |}]%string;
                 Limits.routes_max := 150000 |}
              "700009x1x0"%string
              (failure 404 "FullChannelDetailsNotFound" None)
              eq_refl (or_intror (or_introl eq_refl)) eq_refl)
    as (id' & e' & _ & Hid & Hrun).
  rewrite Hrun. f_equal. f_equal.
  simpl in Hid. destruct (String.eqb id' "700009x1x0"); [| discriminate].
  now inversion Hid.
Defined.


(** *** Millitokens *)

Lemma to_int_printable z :
  NilZero.int_of_string (NilZero.string_of_int (Z.to_int z))
  = Some (Z.to_int z).
Proof.
  apply NilZero.isi; destruct z as [| p | p]; simpl; try discriminate;
    intros H; injection H as H;
    now apply (DecimalPos.Unsigned.to_uint_nonnil p).
Qed.

(** X14.  [tokensAsMtokens] writes a thousand times the amount as a
    decimal string that reads back as that number, so that different
    amounts give different strings; an absent amount raises. *)
Theorem mtokens_read_back n :
  (exists s,
     tokensAsMtokens (Some n) = inr s /\
     Derived.mtokens_value s = Some (n * 1000)) /\
  (forall m, tokensAsMtokens (Some n) = tokensAsMtokens (Some m) -> n = m) /\
  (exists e, tokensAsMtokens None = inl e).
Proof.
  assert (Hval : forall k s,
            tokensAsMtokens (Some k) = inr s ->
            Derived.mtokens_value s = Some (k * 1000)).
  { intros k s H. injection H as <-. unfold Derived.mtokens_value.
    rewrite to_int_printable. simpl. now rewrite DecimalZ.of_to. }
  split; [| split].
  - eexists. split; [reflexivity |]. now apply Hval.
  - intros m H. unfold tokensAsMtokens in H. injection H as H.
    assert (Hn : Derived.mtokens_value
                   (NilZero.string_of_int (Z.to_int (n * 1000)))
                 = Some (n * 1000)) by now apply Hval.
    assert (Hm : Derived.mtokens_value
                   (NilZero.string_of_int (Z.to_int (m * 1000)))
                 = Some (m * 1000)) by now apply Hval.
    rewrite H, Hm in Hn. injection Hn as Hn. lia.
  - eexists. reflexivity.
Qed.

Lemma mtokens_read_back_witness :
  Derived.mtokens_value "100000000" = Some (100000 * 1000) /\ 7 = 7.
Proof.
  destruct (mtokens_read_back 100000) as [(s & Hs & Hv) _].
  injection Hs as <-. split; [exact Hv |].
  exact (proj1 (proj2 (mtokens_read_back 7)) 7 eq_refl).
Defined.

(** *** From the limits to the routes *)

(** X15.  Once every distinct channel of the probes has been fetched, the
    translation asks for the block height and then calls the Route
    Synthesizer once, with the fetched channels in the order of the
    identifiers, the limits' probes and [routes_max], the block height, and
    a thousand times the amount as millitokens; it returns the routes of
    the synthesizer unchanged.  Otherwise it is rejected with the error of
    the block-height query or of the synthesizer as the wrapper of an
    [async] function hands it on: an [Error] whose message is the error
    array written as a string, such as [503,FailedToConnectToDaemon]. *)
Theorem translation_composes w args lim channels amount :
  js_lt (Limits.routes_max lim) (tokens args) = false ->
  Forall2 (fun id c => getChannel w id (lnd args) = inr c)
    (uniq (Derived.channel_ids lim)) channels ->
  tokens args = Some amount ->
  (forall e,
     getWalletInfo w (lnd args) = inl e ->
     getMultiPaths w args (Some lim)
     = (Fail (rejection e),
        map EvGetChannel (uniq (Derived.channel_ids lim))
          ++ [EvGetWalletInfo])) /\
  (forall info,
     getWalletInfo w (lnd args) = inr info ->
     exists mtok,
       Derived.mtokens_value mtok = Some (amount * 1000) /\
       getMultiPaths w args (Some lim)
       = (match multiPathPayment w
                  (Derived.paymentRequest args lim channels info mtok) with
          | inr rs => Ok (Some rs)
          | inl e => Fail (rejection e)
          end,
          map EvGetChannel (uniq (Derived.channel_ids lim))
            ++ [EvGetWalletInfo;
                EvMultiPathPayment
                  (Derived.paymentRequest args lim channels info mtok)])).
Proof.
  intros Hlt Hch Hamount.
  pose proof (asyncMap_calls_trace EvGetChannel
                (fun id => rejected (getChannel w id (lnd args)))
                (uniq (Derived.channel_ids lim))) as Htr.
  apply fetched_channels in Hch.
  apply (asyncMap_calls_ok EvGetChannel
           (fun id => rejected (getChannel w id (lnd args)))) in Hch.
  assert (Hmap : asyncMap (uniq (Derived.channel_ids lim))
                   (fun id => call (EvGetChannel id)
                                (rejected (getChannel w id (lnd args))))
                 = (Ok channels,
                    map EvGetChannel (uniq (Derived.channel_ids lim)))).
  { destruct (asyncMap _ _) as [r t]. simpl in *. now subst. }
  unfold getMultiPaths. rewrite Hlt. fold (Derived.channel_ids lim).
  rewrite (fetch_channels w args), Hmap. split.
  - intros e He. rewrite He. reflexivity.
  - intros info Hinfo. rewrite Hinfo, Hamount.
    destruct (mtokens_read_back amount) as [(mtok & Hm & Hv) _].
    exists mtok. split; trivial. rewrite Hm.
    cbn [bind call]. unfold Derived.paymentRequest.
    destruct (multiPathPayment w _); reflexivity.
Qed.

Lemma translation_composes_witness :
  getMultiPaths Scenario.world Scenario.request
    (Some {| Limits.latency_ms := 240;
             Limits.probes := [summary (Scenario.probe "700001x1x0" 90000);
                               summary (Scenario.probe "700002x1x0" 60000)];
             Limits.routes_max := 150000 |})
  = (Ok (Some [Scenario.route "700001x1x0" 60000 200;
               Scenario.route "700002x1x0" 40000 100]),
     snd (getMultiPaths Scenario.world Scenario.request
            (Some {| Limits.latency_ms := 240;
                     Limits.probes :=
                       [summary (Scenario.probe "700001x1x0" 90000);
                        summary (Scenario.probe "700002x1x0" 60000)];
                     Limits.routes_max := 150000 |}))) /\
  getMultiPaths Cases.no_height Scenario.request
    (Some {| Limits.latency_ms := 240;
             Limits.probes := [summary (Scenario.probe "700001x1x0" 90000);
                               summary (Scenario.probe "700002x1x0" 60000)];
             Limits.routes_max := 150000 |})
  = (Fail (thrown "503,FailedToConnectToDaemon"),
     [EvGetChannel "700001x1x0"; EvGetChannel "700002x1x0";
      EvGetWalletInfo]).
Proof.
  split;
    [| exact (proj1 (translation_composes Cases.no_height Scenario.request
              {| Limits.latency_ms := 240;
                 Limits.probes := [summary (Scenario.probe "700001x1x0" 90000);
                                   summary (Scenario.probe "700002x1x0" 60000)];
                 Limits.routes_max := 150000 |}
              [{| ChannelInfo.id := "700001x1x0";
                  ChannelInfo.capacity := 16777215 |};
               {| ChannelInfo.id := "700002x1x0";
                  ChannelInfo.capacity := 16777215 |}]
              100000 eq_refl
              (Forall2_cons _ _ eq_refl
                 (Forall2_cons _ _ eq_refl (Forall2_nil _)))
              eq_refl)
              Scenario.unavailable eq_refl)].
  destruct (proj2 (translation_composes Scenario.world Scenario.request
              {| Limits.latency_ms := 240;
                 Limits.probes := [summary (Scenario.probe "700001x1x0" 90000);
                                   summary (Scenario.probe "700002x1x0" 60000)];
                 Limits.routes_max := 150000 |}
              [{| ChannelInfo.id := "700001x1x0";
                  ChannelInfo.capacity := 16777215 |};
               {| ChannelInfo.id := "700002x1x0";
                  ChannelInfo.capacity := 16777215 |}]
              100000 eq_refl
              (Forall2_cons _ _ eq_refl
                 (Forall2_cons _ _ eq_refl (Forall2_nil _)))
              eq_refl)
              {| WalletInfo.current_block_height := 700000 |} eq_refl)
    as (mtok & _ & Hrun).
  rewrite Hrun. reflexivity.
Defined.

Lemma getMultiPaths_routes w args lim rs t :
  getMultiPaths w args lim = (Ok (Some rs), t) ->
  exists req,
    multiPathPayment w req = inr rs /\ In (EvMultiPathPayment req) t.
Proof.
  unfold getMultiPaths. intros H.
  apply (proj1 (asyncify_ok _ _ _ _)) in H. revert H.
  destruct lim as [lim |]; [| discriminate].
  destruct (js_lt _ _); [discriminate |].
  intros H. apply bind_ok in H as (channels & t1 & t2 & _ & H & ->).
  apply bind_ok in H as (info & t3 & t4 & _ & H & ->).
  destruct (tokensAsMtokens (tokens args)) as [e | mtok]; [discriminate |].
  apply bind_ok in H as (rs' & t5 & t6 & Hcall & H & ->).
  apply call_ok in Hcall as [Hcall ->]. inversion H; subst.
  eexists. split; [exact Hcall |].
  rewrite !in_app_iff. right. right. left. now left.
Qed.

(** X16.  The routes of a result are never made up here: they are either
    the list that the Route Synthesizer returned to a call of this request,
    or the one route that the Probe Executor returned to it. *)
Theorem returned_routes_come_from_a_collaborator fuel w args res tr :
  get_routes_for_funding fuel w args = (Ok res, tr) ->
  (exists req,
     multiPathPayment w req = inr (Result.routes res) /\
     In (EvMultiPathPayment req) tr) \/
  (exists req single r,
     executeProbe w req = inr single /\
     ProbeResult.route single = Some r /\
     Result.routes res = [r] /\
     In (EvExecuteProbe req) tr).
Proof.
  unfold get_routes_for_funding. intros H.
  apply bind_ok in H as (? & t0 & t1 & _ & H & ->).
  apply bind_ok in H as ([supported single] & t2 & t3 & Hb & H & ->).
  apply both_ok in Hb as (ta & tb & _ & Hs & ->).
  unfold select in H. cbn [fst snd] in H.
  apply bind_ok in H as (lim & t4 & t5 & _ & H & ->).
  apply bind_ok in H as (multi & t6 & t7 & Hp & H & ->).
  unfold result in H. destruct (_ || _) eqn:Hok; [discriminate |].
  inversion H; subst. cbn [Result.routes].
  destruct multi as [rs |]; simpl.
  - left. destruct (getMultiPaths_routes w args lim rs t6 Hp)
      as (req & Hreq & Hin).
    exists req. split; trivial. rewrite !in_app_iff. auto.
  - right. unfold getSinglePath in Hs.
    destruct (tokensAsMtokens (tokens args)) as [e | total];
      [discriminate |].
    destruct (executeProbe w (singlePathRequest args total))
      as [err | single'] eqn:He; inversion Hs; subst.
    destruct (ProbeResult.route single) as [r |] eqn:Hr.
    + exists (singlePathRequest args total), single, r.
      repeat split; trivial. rewrite !in_app_iff. simpl. auto.
    + unfold paths in Hok. rewrite Hr in Hok. discriminate.
Qed.

Lemma returned_routes_come_from_a_collaborator_witness :
  (exists req,
     multiPathPayment Scenario.world req
     = inr [Scenario.route "700001x1x0" 60000 200;
            Scenario.route "700002x1x0" 40000 100]) \/
  (exists r,
     [Scenario.route "700001x1x0" 60000 200;
      Scenario.route "700002x1x0" 40000 100] = [r]).
Proof.
  destruct (returned_routes_come_from_a_collaborator 10 Scenario.world
              Scenario.request
              {| Result.fee := 300;
                 Result.routes := [Scenario.route "700001x1x0" 60000 200;
                                   Scenario.route "700002x1x0" 40000 100] |}
              (snd (get_routes_for_funding 10 Scenario.world
                      Scenario.request)) eq_refl)
    as [(req & Hreq & _) | (req & single & r & _ & _ & Hr & _)].
  - left. now exists req.
  - right. now exists r.
Defined.

End RoutesExtra.

(** ** Further properties of the balance *)
Module BalanceExtra.
Import GetBalance BalanceFacts.

Local Open Scope Z_scope.

Lemma balance_of_balances nd args chain chan chans pend :
  balance nd args chain chan chans pend
  = match balanceFromTokens nd (above args) (below args)
            (Derived.balances args chain chan chans pend) with
    | None => (Pending, [])
    | Some total =>
        ret {| Result.balance := total;
               Result.channel_balance :=
                 ChannelBalance.channel_balance chan
                 - futureCommitFees chans |}
    end.
Proof. reflexivity. Qed.

Lemma get_balance_queries nd args :
  truthy (lnd args) = true ->
  get_balance nd args
  = (r <- both (call EvGetChainBalance (getChainBalance nd (lnd args)))
            (both (call EvGetChannelBalance (getChannelBalance nd (lnd args)))
               (both (call EvGetChannels (getChannels nd (lnd args)))
                  (call EvGetPendingChainBalance
                     (getPendingChainBalance nd (lnd args))))) ;;
     let '(chain, (chan, (chans, pend))) := r in
     balance nd args chain chan chans pend).
Proof.
  intros H. unfold get_balance, validate. rewrite H. simpl.
  destruct (both _ _) as [[[chain [chan [chans pend]]] | e |] t]; simpl;
    trivial.
  now destruct (balance nd args chain chan chans pend).
Qed.

Lemma balance_silent nd args chain chan chans pend :
  snd (balance nd args chain chan chans pend) = [].
Proof.
  rewrite balance_of_balances. now destruct (balanceFromTokens nd _ _ _).
Qed.

(** X17.  Without [lnd] the balance fails with the class-400 error
    [ExpectedLndToGetBalance] and the node is not queried; with [lnd] the
    four queries (chain balance, channel balance, channels, pending chain
    balance) are all started, whatever they answer. *)
Theorem balance_queries_all_or_nothing nd args :
  (truthy (lnd args) = false ->
   get_balance nd args
   = (Fail (failure 400 "ExpectedLndToGetBalance" None), [])) /\
  (truthy (lnd args) = true ->
   snd (get_balance nd args)
   = [EvGetChainBalance; EvGetChannelBalance; EvGetChannels;
      EvGetPendingChainBalance]).
Proof.
  split; intros H.
  - unfold get_balance, validate. now rewrite H.
  - rewrite get_balance_queries by trivial.
    destruct (getChainBalance nd (lnd args)),
             (getChannelBalance nd (lnd args)),
             (getChannels nd (lnd args)),
             (getPendingChainBalance nd (lnd args)); simpl; trivial.
    match goal with
    | |- context [balance ?a ?b ?c ?d ?e ?f] =>
        pose proof (balance_silent a b c d e f) as Hs;
        destruct (balance a b c d e f)
    end.
    simpl in *. now subst.
Qed.

Lemma balance_queries_all_or_nothing_witness :
  snd (get_balance BalanceScenario.node BalanceScenario.plain)
  = [EvGetChainBalance; EvGetChannelBalance; EvGetChannels;
     EvGetPendingChainBalance].
Proof.
  exact (proj2 (balance_queries_all_or_nothing BalanceScenario.node
                  BalanceScenario.plain) eq_refl).
Defined.

(** X18.  With [lnd], the balance fails exactly when one of the four
    queries fails, and then with the error of a failing query; when all
    four answer, the outcome is that of the [balance] task on their
    answers. *)
Theorem balance_fails_with_a_query nd args :
  truthy (lnd args) = true ->
  (forall e,
     fst (get_balance nd args) = Fail e ->
     getChainBalance nd (lnd args) = inl e \/
     getChannelBalance nd (lnd args) = inl e \/
     getChannels nd (lnd args) = inl e \/
     getPendingChainBalance nd (lnd args) = inl e) /\
  ((exists e,
      getChainBalance nd (lnd args) = inl e \/
      getChannelBalance nd (lnd args) = inl e \/
      getChannels nd (lnd args) = inl e \/
      getPendingChainBalance nd (lnd args) = inl e) ->
   exists e, fst (get_balance nd args) = Fail e) /\
  (forall chain chan chans pend,
     getChainBalance nd (lnd args) = inr chain ->
     getChannelBalance nd (lnd args) = inr chan ->
     getChannels nd (lnd args) = inr chans ->
     getPendingChainBalance nd (lnd args) = inr pend ->
     fst (get_balance nd args)
     = fst (balance nd args chain chan chans pend)).
Proof.
  intros H. rewrite get_balance_queries by trivial.
  destruct (getChainBalance nd (lnd args)) as [e1 | chain],
           (getChannelBalance nd (lnd args)) as [e2 | chan],
           (getChannels nd (lnd args)) as [e3 | chans],
           (getPendingChainBalance nd (lnd args)) as [e4 | pend]; simpl;
    (split; [| split]);
    try (intros e He; inversion He; subst; tauto);
    try (intros _; eexists; reflexivity);
    try (intros chain' chan' chans' pend' H1 H2 H3 H4; discriminate).
  - intros e He. exfalso. revert He. rewrite balance_of_balances.
    destruct (balanceFromTokens nd _ _ _); discriminate.
  - intros (e & [He | [He | [He | He]]]); discriminate.
  - intros chain' chan' chans' pend' H1 H2 H3 H4.
    inversion H1; inversion H2; inversion H3; inversion H4; subst.
    now destruct (balance nd args chain' chan' chans' pend').
Qed.

Lemma balance_fails_with_a_query_witness :
  fst (get_balance BalanceScenario.node BalanceScenario.plain)
  = Ok {| Result.balance := 259800; Result.channel_balance := 199800 |}.
Proof.
  rewrite (proj2 (proj2 (balance_fails_with_a_query BalanceScenario.node
                           BalanceScenario.plain eq_refl))
             50000
             {| ChannelBalance.channel_balance := 200000;
                ChannelBalance.pending_balance := 7000 |}
             [BalanceScenario.opened (Some false) 180;
              BalanceScenario.opened (Some true) 250;
              BalanceScenario.opened (Some false) 20;
              BalanceScenario.opened None 1000]
             3000 eq_refl eq_refl eq_refl eq_refl).
  reflexivity.
Defined.

(** X19.  With [is_confirmed], pending amounts are not counted: the
    outcome of the [balance] task does not depend on the pending chain
    balance nor on the pending channel balance. *)
Theorem confirmed_balance_ignores_pending nd args chain chan chan' chans
    pend pend' :
  truthy (is_confirmed args) = true ->
  ChannelBalance.channel_balance chan = ChannelBalance.channel_balance chan' ->
  balance nd args chain chan chans pend
  = balance nd args chain chan' chans pend'.
Proof.
  intros Hc Hb. rewrite !balance_of_balances. unfold Derived.balances.
  rewrite Hc, !orb_true_r, Hb. reflexivity.
Qed.

Lemma confirmed_balance_ignores_pending_witness :
  balance BalanceScenario.node BalanceScenario.onchain_confirmed 50000
    {| ChannelBalance.channel_balance := 200000;
       ChannelBalance.pending_balance := 7000 |} [] 3000
  = balance BalanceScenario.node BalanceScenario.onchain_confirmed 50000
      {| ChannelBalance.channel_balance := 200000;
         ChannelBalance.pending_balance := 0 |} [] 999.
Proof.
  exact (confirmed_balance_ignores_pending BalanceScenario.node
           BalanceScenario.onchain_confirmed 50000 _ _ [] 3000 999
           eq_refl eq_refl).
Defined.

(** X20.  What the options count.  The amounts handed to
    [balanceFromTokens] add up, without any option, to the chain balance,
    the returned [channel_balance] and both pending balances; with
    [is_onchain_only] alone to the chain balance and the pending chain
    balance; with [is_offchain_only] alone to the returned
    [channel_balance] and the pending channel balance; and with both
    options every amount is zero. *)
Theorem options_select_the_amounts args chain chan chans pend :
  (truthy (is_onchain_only args) = false ->
   truthy (is_offchain_only args) = false ->
   truthy (is_confirmed args) = false ->
   Spec.total (Derived.balances args chain chan chans pend)
   = chain
     + (ChannelBalance.channel_balance chan - Spec.own_commit_fees chans)
     + pend + ChannelBalance.pending_balance chan) /\
  (truthy (is_onchain_only args) = true ->
   truthy (is_offchain_only args) = false ->
   truthy (is_confirmed args) = false ->
   Spec.total (Derived.balances args chain chan chans pend) = chain + pend) /\
  (truthy (is_onchain_only args) = false ->
   truthy (is_offchain_only args) = true ->
   truthy (is_confirmed args) = false ->
   Spec.total (Derived.balances args chain chan chans pend)
   = (ChannelBalance.channel_balance chan - Spec.own_commit_fees chans)
     + ChannelBalance.pending_balance chan) /\
  (truthy (is_onchain_only args) = true ->
   truthy (is_offchain_only args) = true ->
   Derived.balances args chain chan chans pend = [0; 0; 0; 0; 0]).
Proof.
  unfold Derived.balances, none. rewrite futureCommitFees_spec.
  repeat split; intros;
    repeat match goal with H : truthy _ = _ |- _ => rewrite H; clear H end;
    simpl; lia || reflexivity.
Qed.

Lemma options_select_the_amounts_witness :
  Spec.total
    (Derived.balances BalanceScenario.plain 50000
       {| ChannelBalance.channel_balance := 200000;
          ChannelBalance.pending_balance := 7000 |}
       [BalanceScenario.opened (Some false) 180;
        BalanceScenario.opened (Some true) 250]
       3000)
  = 50000 + (200000 - 180) + 3000 + 7000.
Proof.
  exact (proj1 (options_select_the_amounts BalanceScenario.plain 50000
                  {| ChannelBalance.channel_balance := 200000;
                     ChannelBalance.pending_balance := 7000 |}
                  [BalanceScenario.opened (Some false) 180;
                   BalanceScenario.opened (Some true) 250]
                  3000) eq_refl eq_refl eq_refl).
Defined.

End BalanceExtra.

(** ** The chart of chain fees *)
Module ChartFacts.
Import GetChainFeesChart Dates.

Local Open Scope string_scope.
Local Open Scope Z_scope.

(** *** Dates *)

Lemma enumerate lo hi n :
  (lo <= n <= hi)%nat -> In n (seq lo (hi - lo + 1)).
Proof. intros H. apply in_seq. lia. Qed.

Lemma in_range_cases lo hi c :
  in_range lo hi c = true ->
  exists n,
    (nat_of_ascii lo <= n <= nat_of_ascii hi)%nat /\ c = ascii_of_nat n.
Proof.
  unfold in_range. intros H. apply andb_true_iff in H as [H1 H2].
  apply Nat.leb_le in H1, H2. exists (nat_of_ascii c).
  split; [lia |]. now rewrite ascii_nat_embedding.
Qed.

Ltac pick_char H c :=
  let n := fresh "n" in
  let Hn := fresh "Hn" in
  apply in_range_cases in H as (n & Hn & ->);
  apply enumerate in Hn; simpl in Hn;
  repeat destruct Hn as [<- | Hn]; try contradiction.

Lemma digit_spec c :
  is_digit c = true <-> exists k, (k < 10)%nat /\ c = digit_char k.
Proof.
  split.
  - intros H. pick_char H c;
      [exists 0%nat | exists 1%nat | exists 2%nat | exists 3%nat
       | exists 4%nat | exists 5%nat | exists 6%nat | exists 7%nat
       | exists 8%nat | exists 9%nat]; (split; [lia | reflexivity]).
  - intros (k & Hk & ->).
    assert (Hin : In k (seq 0 10)) by (apply in_seq; lia).
    simpl in Hin. repeat destruct Hin as [<- | Hin]; try contradiction;
      reflexivity.
Qed.

Lemma month_spec a b :
  is_month a b = true <->
  exists m,
    (1 <= m <= 12)%nat /\
    String a (String b EmptyString) = two_digits m.
Proof.
  split.
  - unfold is_month. intros H.
    apply orb_true_iff in H as [H | H];
      apply andb_true_iff in H as [Ha Hb].
    + apply Ascii.eqb_eq in Ha as ->. pick_char Hb b;
        [exists 1%nat | exists 2%nat | exists 3%nat | exists 4%nat
         | exists 5%nat | exists 6%nat | exists 7%nat | exists 8%nat
         | exists 9%nat]; (split; [lia | reflexivity]).
    + apply Ascii.eqb_eq in Ha as ->. pick_char Hb b;
        [exists 10%nat | exists 11%nat | exists 12%nat];
        (split; [lia | reflexivity]).
  - intros (m & Hm & Heq). injection Heq as -> ->.
    apply enumerate in Hm. simpl in Hm.
    repeat destruct Hm as [<- | Hm]; try contradiction; reflexivity.
Qed.

Lemma day_spec a b :
  is_day a b = true <->
  exists d,
    (1 <= d <= 31)%nat /\
    String a (String b EmptyString) = two_digits d.
Proof.
  split.
  - unfold is_day. intros H.
    apply orb_true_iff in H as [H | H];
      [apply orb_true_iff in H as [H | H] |];
      apply andb_true_iff in H as [Ha Hb].
    + apply Ascii.eqb_eq in Ha as ->. pick_char Hb b;
        [exists 1%nat | exists 2%nat | exists 3%nat | exists 4%nat
         | exists 5%nat | exists 6%nat | exists 7%nat | exists 8%nat
         | exists 9%nat]; (split; [lia | reflexivity]).
    + pick_char Ha a; pick_char Hb b;
        [exists 10%nat | exists 11%nat | exists 12%nat | exists 13%nat
         | exists 14%nat | exists 15%nat | exists 16%nat | exists 17%nat
         | exists 18%nat | exists 19%nat | exists 20%nat | exists 21%nat
         | exists 22%nat | exists 23%nat | exists 24%nat | exists 25%nat
         | exists 26%nat | exists 27%nat | exists 28%nat | exists 29%nat];
        (split; [lia | reflexivity]).
    + apply Ascii.eqb_eq in Ha as ->. pick_char Hb b;
        [exists 30%nat | exists 31%nat]; (split; [lia | reflexivity]).
  - intros (d & Hd & Heq). injection Heq as -> ->.
    apply enumerate in Hd. simpl in Hd.
    repeat destruct Hd as [<- | Hd]; try contradiction; reflexivity.
Qed.


(** X21.  [isDate] accepts exactly the strings [YYYY-MM-DD] made of four
    digits, a month from 01 to 12 and a day from 01 to 31, whatever the
    month is: the day is not checked against the month. *)
Theorem isDate_accepts_digit_dates s :
  isDate s = true <->
  exists y1 y2 y3 y4 m d,
    (y1 < 10 /\ y2 < 10 /\ y3 < 10 /\ y4 < 10)%nat /\
    (1 <= m <= 12)%nat /\ (1 <= d <= 31)%nat /\
    s = date_string y1 y2 y3 y4 m d.
Proof.
  split.
  - unfold isDate.
    do 10 (destruct s as [| ? s]; [discriminate |]).
    destruct s; [| discriminate]. simpl. intros H.
    repeat match type of H with
           | _ && _ = true =>
               let H' := fresh "H" in apply andb_true_iff in H as [H H']
           end.
    apply digit_spec in H as (y1 & Hy1 & ->).
    apply digit_spec in H6 as (y2 & Hy2 & ->).
    apply digit_spec in H5 as (y3 & Hy3 & ->).
    apply digit_spec in H4 as (y4 & Hy4 & ->).
    apply Ascii.eqb_eq in H3 as ->. apply Ascii.eqb_eq in H1 as ->.
    apply month_spec in H2 as (m & Hm & Hmm).
    apply day_spec in H0 as (d & Hd & Hdd).
    exists y1, y2, y3, y4, m, d. repeat split; try lia.
    unfold date_string. rewrite <- Hmm, <- Hdd. reflexivity.
  - intros (y1 & y2 & y3 & y4 & m & d & (H1 & H2 & H3 & H4) & Hm & Hd & ->).
    assert (Hmm : is_month (digit_char (m / 10)) (digit_char (m mod 10))
                  = true) by (apply month_spec; now exists m).
    assert (Hdd : is_day (digit_char (d / 10)) (digit_char (d mod 10))
                  = true) by (apply day_spec; now exists d).
    unfold isDate, date_string, two_digits.
    cbn [list_ascii_of_string append].
    rewrite Hmm, Hdd.
    rewrite (proj2 (digit_spec (digit_char y1))) by eauto.
    rewrite (proj2 (digit_spec (digit_char y2))) by eauto.
    rewrite (proj2 (digit_spec (digit_char y3))) by eauto.
    rewrite (proj2 (digit_spec (digit_char y4))) by eauto.
    reflexivity.
Qed.

Lemma isDate_accepts_digit_dates_witness :
  isDate "2021-02-31" = true.
Proof.
  apply (proj2 (isDate_accepts_digit_dates "2021-02-31")).
  exists 2%nat, 0%nat, 2%nat, 1%nat, 2%nat, 31%nat.
  repeat split; lia || reflexivity.
Defined.

(** *** Validation *)

Lemma leb_false_ltb s1 s2 :
  String.leb s1 s2 = false -> String.ltb s2 s1 = true.
Proof.
  unfold String.leb, String.ltb. rewrite (String.compare_antisym s2 s1).
  now destruct (String.compare s1 s2).
Qed.

Lemma truthy_date (date : option string) :
  truthy date = true ->
  exists s, date = Some s /\ s <> EmptyString /\ date_or_empty date = s.
Proof.
  destruct date as [[| c s] |]; try discriminate.
  intros _. exists (String c s). repeat split. discriminate.
Qed.

(** X22.  The validation of the chart fails with class 400 only, and on
    the dates it decides as follows: without any date the request is
    accepted, whatever [days] is; [days] together with a date is rejected,
    and so is an end date without a start date. *)
Theorem chart_validation_of_days_and_dates cal args :
  (forall e, validate cal args = inl e ->
     exists reason, e = failure 400 reason None) /\
  (truthy (option_map (@length Lnd) (lnds args)) = true ->
   truthy (request args) = true ->
   (truthy (end_date args) = false ->
    truthy (start_date args) = false ->
    validate cal args = inr tt) /\
   (truthy (days args) = true ->
    truthy (end_date args) = true \/ truthy (start_date args) = true ->
    validate cal args
    = expected "ExpectedEitherDaysOrDatesToGetChainFeesChart") /\
   (truthy (days args) = false ->
    truthy (end_date args) = true ->
    truthy (start_date args) = false ->
    validate cal args = expected "ExpectedStartDateToRangeToEndDate")).
Proof.
  split.
  - intros e. unfold validate, expected.
    repeat match goal with
           | |- (if ?c then _ else _) = _ -> _ => destruct c
           end;
      intros H; inversion H; eauto.
  - intros Hl Hr. unfold validate. rewrite Hl, Hr. simpl.
    split; [| split].
    + now intros -> ->.
    + intros -> [-> | ->]; simpl; trivial.
      now destruct (truthy (end_date args)).
    + now intros -> -> ->.
Qed.

Lemma chart_validation_of_days_and_dates_witness :
  validate calendar (chart_request (Some 30) None None) = inr tt /\
  validate calendar (chart_request (Some 30) (Some "2021-01-01") None)
  = expected "ExpectedEitherDaysOrDatesToGetChainFeesChart" /\
  validate calendar (chart_request None None (Some "2021-03-01"))
  = expected "ExpectedStartDateToRangeToEndDate".
Proof.
  split; [| split].
  - apply (proj2 (chart_validation_of_days_and_dates calendar
                    (chart_request (Some 30) None None)) eq_refl eq_refl);
      reflexivity.
  - apply (proj2 (chart_validation_of_days_and_dates calendar
                    (chart_request (Some 30) (Some "2021-01-01") None))
             eq_refl eq_refl).
    + reflexivity.
    + now right.
  - apply (proj2 (chart_validation_of_days_and_dates calendar
                    (chart_request None None (Some "2021-03-01")))
             eq_refl eq_refl); reflexivity.
Defined.

(** X23.  An accepted request with an end date has no [days], and both of
    its dates are in the format of [isDate], valid, not in the future, and
    the start date is before the end date in the order of strings.  The
    format of the start date is only checked when there is an end date. *)
Theorem accepted_date_range_is_well_formed cal args :
  validate cal args = inr tt ->
  truthy (end_date args) = true ->
  truthy (days args) = false /\
  exists first last,
    start_date args = Some first /\ end_date args = Some last /\
    isDate first = true /\ isDate last = true /\
    String.ltb first last = true /\
    isValid cal first = true /\ isValid cal last = true /\
    in_future cal first 0 = false /\ in_future cal last 1 = false.
Proof.
  intros Hv He. unfold validate, expected in Hv. rewrite He in Hv.
  destruct (negb (truthy (option_map _ (lnds args)))); [discriminate |].
  destruct (negb (truthy (request args))); [discriminate |].
  simpl in Hv.
  destruct (truthy (days args)); [discriminate |].
  destruct (truthy (start_date args)) eqn:Hs; [| discriminate].
  simpl in Hv.
  destruct (truthy_date (start_date args) Hs) as (first & Hf & _ & Hfirst).
  destruct (truthy_date (end_date args) He) as (last & Hl & _ & Hlast).
  rewrite Hfirst, Hlast in Hv.
  destruct (isValid cal first) eqn:H1; [| discriminate].
  destruct (in_future cal first 0) eqn:H2; [discriminate |].
  destruct (String.leb last first) eqn:H3; [discriminate |].
  destruct (isDate last) eqn:H4; [| discriminate].
  destruct (isValid cal last) eqn:H5; [| discriminate].
  destruct (in_future cal last 1) eqn:H6; [discriminate |].
  destruct (isDate first) eqn:H7; [| discriminate].
  split; trivial. exists first, last. repeat split; trivial.
  now apply leb_false_ltb.
Qed.

Lemma accepted_date_range_is_well_formed_witness :
  exists first last,
    Some "2021-01-01"%string = Some first /\
    Some "2021-03-01"%string = Some last /\
    String.ltb first last = true.
Proof.
  destruct (accepted_date_range_is_well_formed calendar
              (chart_request None (Some "2021-01-01") (Some "2021-03-01"))
              eq_refl eq_refl)
    as (_ & first & last & Hf & Hl & _ & _ & Hlt & _).
  now exists first, last.
Defined.


(** *** Segments *)

Lemma chart_days_nonzero cal args : chart_days cal args <> 0.
Proof.
  assert (HZ : forall z : Z, truthy z = negb (z =? 0)) by reflexivity.
  unfold chart_days, js_or, daysBetween, defaultDays.
  destruct (days args) as [n |];
    try change (truthy (Some n)) with (truthy n); simpl; rewrite ?HZ;
    try destruct (Z.eqb_spec n 0);
    destruct (truthy (start_date args));
    destruct (Z.eqb_spec (diff cal (end_date args) (start_date args)) 0);
    simpl; lia.
Qed.

(** X24.  The number of days of the chart is never zero, and it is 60
    when neither [days] nor a start date is given.  For one day or more,
    the chart has at least four segments: 24 per day for fewer than 4 days,
    one per day for 4 to 90 days, and for more than 90 days one per whole
    week, which leaves out at most six days. *)
Theorem segments_cover_the_days cal args :
  chart_days cal args <> 0 /\
  (truthy (days args) = false ->
   truthy (start_date args) = false ->
   chart_days cal args = 60 /\ measure cal args = day /\
   segments cal args (measure cal args) = 60) /\
  (1 <= chart_days cal args ->
   4 <= segments cal args (measure cal args) /\
   match measure cal args with
   | hour =>
       chart_days cal args <= 3 /\
       segments cal args hour = 24 * chart_days cal args
   | day =>
       4 <= chart_days cal args <= 90 /\
       segments cal args day = chart_days cal args
   | week =>
       91 <= chart_days cal args /\
       7 * segments cal args week <= chart_days cal args
       < 7 * segments cal args week + 7
   end).
Proof.
  split; [apply chart_days_nonzero | split].
  - intros Hd Hs.
    assert (H : chart_days cal args = 60)
      by (unfold chart_days; now rewrite Hd, Hs).
    unfold measure, segments. rewrite !H. repeat split.
  - intros Hpos. unfold measure, segments, maxChartDays, minChartDays,
      hoursPerDay, daysPerWeek.
    destruct (Z.ltb_spec 90 (chart_days cal args)) as [Hw | Hw].
    + pose proof (Z.div_mod (chart_days cal args) 7 ltac:(lia)) as Hdiv.
      pose proof (Z.mod_pos_bound (chart_days cal args) 7 ltac:(lia)) as Hm.
      lia.
    + destruct (Z.ltb_spec (chart_days cal args) 4) as [Hh | Hh]; lia.
Qed.

Lemma segments_cover_the_days_witness :
  measure calendar (chart_request None (Some "2021-01-01") None) = week /\
  segments calendar (chart_request None (Some "2021-01-01") None) week = 17 /\
  segments calendar (chart_request None None None) day = 60.
Proof.
  pose proof (segments_cover_the_days calendar
                (chart_request None (Some "2021-01-01") None))
    as (_ & _ & Hweek).
  pose proof (segments_cover_the_days calendar (chart_request None None None))
    as (_ & Hdefault & _).
  specialize (Hweek ltac:(vm_compute; discriminate)).
  specialize (Hdefault eq_refl eq_refl).
  split; [reflexivity | split; [reflexivity |]].
  destruct Hdefault as (_ & Hm & Hs). rewrite Hm in Hs. exact Hs.
Defined.

(** *** The transactions of the chart *)

Lemma total_from txs acc :
  Forall (fun tx => Tx.fee tx <> None) txs ->
  fold_left
    (fun sum tx =>
       match sum, Tx.fee tx with
       | Some s, Some f => Some (s + f)
       | _, _ => None
       end)
    txs (Some acc)
  = Some (acc + Spec.total (compact (map Tx.fee txs))).
Proof.
  intros H. revert acc. induction H as [| tx txs Hfee _ IH]; intros acc;
    simpl.
  - f_equal. lia.
  - destruct (Tx.fee tx) as [f |]; [| congruence].
    simpl. rewrite IH. f_equal. lia.
Qed.

(** X25.  The transactions of the chart are the confirmed ones that have
    a fee other than zero and were created after the start and, when there
    is an end date, not after the end, in the order of ISO strings.  Their
    total is a number, the sum of their fees, and transactions that are
    not kept do not change it. *)
Theorem fees_of_the_period_are_added cal args txs :
  (forall tx,
     In tx (transactions args (end_ cal args) txs (start cal args)) <->
     In tx txs /\
     Tx.is_confirmed tx = Some true /\
     (exists f, Tx.fee tx = Some f /\ f <> 0) /\
     String.ltb (toISOString (start cal args)) (Tx.created_at tx) = true /\
     (forall last,
        end_date args = Some last -> last <> EmptyString ->
        String.leb (Tx.created_at tx) (toISOString (moment cal last))
        = true)) /\
  total (transactions args (end_ cal args) txs (start cal args))
  = Some (Spec.total
            (compact (map Tx.fee
               (transactions args (end_ cal args) txs (start cal args))))) /\
  (forall tx,
     kept args (end_ cal args) (start cal args) tx = false ->
     total (transactions args (end_ cal args) (tx :: txs) (start cal args))
     = total (transactions args (end_ cal args) txs (start cal args))).
Proof.
  assert (Hkept : forall tx,
            kept args (end_ cal args) (start cal args) tx = true <->
            Tx.is_confirmed tx = Some true /\
            (exists f, Tx.fee tx = Some f /\ f <> 0) /\
            String.ltb (toISOString (start cal args)) (Tx.created_at tx)
            = true /\
            (forall last,
               end_date args = Some last -> last <> EmptyString ->
               String.leb (Tx.created_at tx) (toISOString (moment cal last))
               = true)).
  { intros tx. unfold kept, end_.
    assert (Hfee : truthy (Tx.fee tx) = true <->
                   exists f, Tx.fee tx = Some f /\ f <> 0).
    { destruct (Tx.fee tx) as [f |].
      - change (truthy (Some f)) with (negb (f =? 0)).
        destruct (Z.eqb_spec f 0) as [-> | Hf]; simpl; split.
        + discriminate.
        + intros (f' & Hf & Hn). congruence.
        + intros _. now exists f.
        + trivial.
      - change (truthy (@None Z)) with false.
        split; [discriminate | intros (f & Hf & _); discriminate]. }
    remember (truthy (Tx.fee tx)) as has_fee eqn:Hhas. clear Hhas.
    unfold truthy, Truthy_option, Truthy_bool, Truthy_string.
    destruct (Tx.is_confirmed tx) as [[|] |]; simpl;
      try (split; [discriminate | intros (H & _); discriminate]).
    destruct (end_date args) as [[| c last] |]; simpl.
    - rewrite andb_true_iff, Hfee. split.
      + intros [H1 H2]. repeat split; trivial.
        intros last Hl Hne. congruence.
      + tauto.
    - rewrite !andb_true_iff, Hfee. split.
      + intros [[H1 H2] H3]. repeat split; trivial.
        intros last' Hl _. now injection Hl as <-.
      + intros (_ & H1 & H2 & H3). repeat split; trivial.
        apply H3; [reflexivity | discriminate].
    - rewrite andb_true_iff, Hfee. split.
      + intros [H1 H2]. repeat split; trivial. discriminate.
      + tauto. }
  split; [| split].
  - intros tx. unfold transactions. rewrite filter_In, Hkept. tauto.
  - unfold total. rewrite total_from; [reflexivity |].
    apply Forall_forall. intros tx Hin. unfold transactions in Hin.
    apply filter_In in Hin as [_ Hk]. apply Hkept in Hk
      as (_ & (f & Hf & _) & _).
    congruence.
  - intros tx Hno. unfold transactions. simpl. now rewrite Hno.
Qed.

Lemma fees_of_the_period_are_added_witness :
  total
    (transactions (chart_request None (Some "2021-01-01") None)
       (end_ calendar (chart_request None (Some "2021-01-01") None))
       [paid "2021-02-01T10:00:00.000Z" (Some 500) (Some true);
        paid "2020-12-01T10:00:00.000Z" (Some 900) (Some true);
        paid "2021-02-02T10:00:00.000Z" (Some 300) (Some false);
        paid "2021-02-03T10:00:00.000Z" None (Some true);
        paid "2021-02-04T10:00:00.000Z" (Some 250) (Some true)]
       (start calendar (chart_request None (Some "2021-01-01") None)))
  = Some 750.
Proof.
  rewrite (proj1 (proj2 (fees_of_the_period_are_added calendar
                           (chart_request None (Some "2021-01-01") None)
                           _))).
  reflexivity.
Defined.

End ChartFacts.
